(** * The embedding server of clarity-mcp (python-server/embedding_server.py)

    A shallow embedding of the server's three parts:
    - [FallbackEmbedder.encode], the hash-based text-to-vector function;
    - [load_model], the tiered choice of the process-wide [embedder];
    - [embed_texts], the handler of [POST /embed] (and [health], [root]);
    and of [test_server], the script of test_server.py that exercises them.

    Python [str] values are lists of code points.  What belongs to the
    interpreter and to NumPy rather than to the repository (floating point
    arithmetic, the Unicode case tables behind [str.lower]) is taken as an
    interface, so every result below holds for each implementation of it. *)

From Stdlib Require Import ZArith List String Ascii Lia Reals Lra DecimalString.
From stdpp Require Import base list.
Import ListNotations.
Local Open Scope Z_scope.

(** ** Python strings *)

(** A Python [str]: its code points, as [ord] gives them. *)
Abbreviation pystr := (list Z).

(** An ASCII literal as a Python [str]. *)
Definition py (s : string) : pystr :=
  map (fun a => Z.of_N (N_of_ascii a)) (list_ascii_of_string s).

(** [str(n)] for a non-negative [int]. *)
Definition str_of_nat (n : nat) : pystr :=
  py (NilEmpty.string_of_uint (Nat.to_uint n)).

(** The characters [str.strip()] and [str.split()] treat as whitespace
    (CPython's [_PyUnicode_IsWhitespace]). *)
Definition isspace (c : Z) : bool :=
  ((0x09 <=? c) && (c <=? 0x0D)) || ((0x1C <=? c) && (c <=? 0x20))
  || (c =? 0x85) || (c =? 0xA0) || (c =? 0x1680)
  || ((0x2000 <=? c) && (c <=? 0x200A))
  || (c =? 0x2028) || (c =? 0x2029) || (c =? 0x202F) || (c =? 0x205F)
  || (c =? 0x3000).

(** [s.lstrip()]. *)
Fixpoint lstrip (s : pystr) : pystr :=
  match s with
  | c :: s' => if isspace c then lstrip s' else s
  | [] => []
  end.

(** [s.rstrip()]. *)
Definition rstrip (s : pystr) : pystr := rev (lstrip (rev s)).

(** [s.strip()]. *)
Definition strip (s : pystr) : pystr := rstrip (lstrip s).

(** [s.split()] with the word being read in [word]: maximal runs of
    characters that are not whitespace, empty strings dropped. *)
Fixpoint split_from (word : pystr) (s : pystr) : list pystr :=
  match s with
  | [] => match word with [] => [] | _ => [word] end
  | c :: s' =>
      if isspace c
      then match word with [] => split_from [] s' | _ => word :: split_from [] s' end
      else split_from (word ++ [c]) s'
  end.

(** [s.split()]. *)
Definition split (s : pystr) : list pystr := split_from [] s.

(** [enumerate(s)] counting from [i]. *)
Fixpoint enumerate_from (i : nat) (s : pystr) : list (nat * Z) :=
  match s with
  | [] => []
  | c :: s' => (i, c) :: enumerate_from (S i) s'
  end.

(** [enumerate(s)]. *)
Definition enumerate (s : pystr) : list (nat * Z) := enumerate_from 0 s.

(** [str.lower], whose Unicode tables are the interpreter's. *)
Class Unicode := { lower : pystr -> pystr }.

(** [str.lower] on ASCII text: [A]..[Z] become [a]..[z]. *)
Definition ascii_lower (s : pystr) : pystr :=
  map (fun c => if (65 <=? c) && (c <=? 90) then c + 32 else c) s.

(** ** NumPy arithmetic *)

(** The floating point operations [FallbackEmbedder.encode] uses. *)
Class Numeric := {
  num : Type;
  np_zero : num;                  (* an entry of np.zeros(768, dtype=np.float32) *)
  np_of_int : Z -> num;           (* an int used as a float *)
  np_tenth : num;                 (* the literal 0.1 *)
  np_sin : num -> num;            (* np.sin *)
  np_log : num -> num;            (* np.log *)
  np_mul : num -> num -> num;
  np_add : num -> num -> num;
  np_div : num -> num -> num;
  np_float32 : num -> num;        (* rounding on a store into a float32 array *)
  np_norm : list num -> num;      (* np.linalg.norm *)
  np_gt0 : num -> bool            (* x > 0 *)
}.

(** ** FallbackEmbedder *)

Section Fallback.
Context {unicode : Unicode} {numeric : Numeric}.

(** [idx = (char_code * 7 + i * 11) % 768]. *)
Definition index_of (i : nat) (char_code : Z) : Z :=
  (char_code * 7 + Z.of_nat i * 11) mod 768.

(** [np.sin(char_code + i) * 0.1]. *)
Definition char_feature (i : nat) (char_code : Z) : num :=
  np_mul (np_sin (np_of_int (char_code + Z.of_nat i))) np_tenth.

(** [np.log(len(text_clean) + 1) * 0.1]. *)
Definition length_feature (text_clean : pystr) : num :=
  np_mul (np_log (np_of_int (Z.of_nat (length text_clean) + 1))) np_tenth.

(** One turn of the loop: [embedding[idx] += np.sin(char_code + i) * 0.1]. *)
Definition accumulate (embedding : list num) (ic : nat * Z) : list num :=
  let '(i, char_code) := ic in
  let idx := index_of i char_code in
  alter (fun x => np_float32 (np_add x (char_feature i char_code)))
        (Z.to_nat idx) embedding.

(** The vector before normalization: the loop over [text_clean[:100]], then
    [embedding[0] = np.log(len(text_clean) + 1) * 0.1]. *)
Definition raw_embedding (text : pystr) : list num :=
  let embedding := replicate 768 np_zero in
  let text_clean := strip (lower text) in
  let embedding := fold_left accumulate (enumerate (take 100 text_clean)) embedding in
  <[0%nat := np_float32 (length_feature text_clean)]> embedding.

(** [norm = np.linalg.norm(embedding); if norm > 0: embedding = embedding / norm]. *)
Definition normalize (embedding : list num) : list num :=
  let norm := np_norm embedding in
  if np_gt0 norm
  then map (fun x => np_float32 (np_div x norm)) embedding
  else embedding.

(** The body of [for text in texts]: the embedding appended for [text]. *)
Definition encode_text (text : pystr) : list num :=
  normalize (raw_embedding text).

(** [FallbackEmbedder.encode]. *)
Definition FallbackEmbedder_encode (texts : list pystr) : list (list num) :=
  map encode_text texts.

(** The vector as the specification describes it, one component at a time:
    component 0 is the length feature; component [k] is what the first 100
    characters whose index is [k] add, in order, to zero. *)
Definition spec_add (k : nat) (acc : num) (ic : nat * Z) : num :=
  let '(i, c) := ic in
  if decide (Z.to_nat (index_of i c) = k)
  then np_float32 (np_add acc (char_feature i c))
  else acc.

Definition spec_component (text_clean : pystr) (k : nat) : num :=
  match k with
  | O => np_float32 (length_feature text_clean)
  | _ => fold_left (spec_add k) (enumerate (take 100 text_clean)) np_zero
  end.

Definition spec_vector (text : pystr) : list num :=
  map (spec_component (strip (lower text))) (seq 0 768).

End Fallback.

(** ** Effects: process state and exceptions *)

(** What a call does: return a value or raise. *)
Inductive result (E A : Type) : Type :=
| Return (a : A)
| Raise (e : E).
Arguments Return {E A} a.
Arguments Raise {E A} e.

(** A computation over the state [S] that may raise an [E]. *)
Definition M (S E A : Type) : Type := S -> result E A * S.

Definition ret {S E A} (a : A) : M S E A := fun s => (Return a, s).

Definition raise {S E A} (e : E) : M S E A := fun s => (Raise e, s).

Definition bind {S E A B} (c : M S E A) (k : A -> M S E B) : M S E B :=
  fun s =>
    match c s with
    | (Return a, s') => k a s'
    | (Raise e, s') => (Raise e, s')
    end.

(** An outcome fixed outside the process (an import, a library call). *)
Definition lift {S E A} (r : result E A) : M S E A := fun s => (r, s).

Definition gets {S E A} (f : S -> A) : M S E A := fun s => (Return (f s), s).

Definition modify {S E} (f : S -> S) : M S E unit := fun s => (Return tt, f s).

(** [try: body / except Exception as e: handler e]; what [body] did to the
    state before it raised stays done. *)
Definition try_except {S E E' A} (body : M S E A) (handler : E -> M S E' A)
  : M S E' A :=
  fun s =>
    match body s with
    | (Return a, s') => (Return a, s')
    | (Raise e, s') => handler e s'
    end.

Declare Scope exec_scope.
Notation "x <- c1 ;; c2" := (bind c1 (fun x => c2))
  (at level 100, c1 at next level, c2 at level 200, right associativity)
  : exec_scope.
Notation "c1 ;; c2" := (bind c1 (fun _ => c2))
  (at level 100, c2 at level 200, right associativity) : exec_scope.
Local Open Scope exec_scope.

(** A raised exception that is an instance of [Exception], the class both
    handlers of the server name: whether it is an [ImportError], and [str(e)]. *)
Record PyException := {
  is_ImportError : bool;
  exn_str : pystr
}.

(** [HTTPException(status_code=..., detail=...)]. *)
Record HTTPException := {
  status_code : Z;
  detail : pystr
}.

(** The level of a log record. *)
Inductive level := INFO | WARNING | ERROR.

(** [class EmbedRequest]. *)
Record EmbedRequest := {
  texts : list pystr;
  model : option pystr
}.

(** The [usage] dictionary of a response. *)
Record Usage := {
  prompt_tokens : Z;
  total_tokens : Z
}.

(** [class HealthResponse]. *)
Record HealthResponse := {
  health_status : pystr;
  health_model : pystr;
  ready : bool
}.

(** [sum(...)] over Python ints. *)
Definition sum (l : list Z) : Z := fold_left Z.add l 0.

(** [a or b] on an optional [str]: [None] and the empty string are falsy. *)
Definition or_else (a : option pystr) (b : pystr) : pystr :=
  match a with
  | Some (c :: s) => c :: s
  | Some [] | None => b
  end.

Section Server.
Context {unicode : Unicode} {numeric : Numeric}.

(** [class EmbedResponse]. *)
Record EmbedResponse := {
  embeddings : list (list num);
  response_model : pystr;
  usage : Usage
}.

(** The [encode] method of an encoder of a library: what it returns or
    raises may depend on the batches it was given before (its hidden state). *)
Definition encode_method : Type :=
  list (list pystr) -> list pystr -> result PyException (list (list num)).

(** The objects [load_model] may assign to [embedder]. *)
Inductive Embedder :=
| SentenceTransformer (encode : encode_method)
| TransformersEmbedder (encode : encode_method)
| FallbackEmbedder.

(** [embedder.encode(texts)], after the calls [history]. *)
Definition encode (e : Embedder) (history : list (list pystr)) (texts : list pystr)
  : result PyException (list (list num)) :=
  match e with
  | SentenceTransformer f | TransformersEmbedder f => f history texts
  | FallbackEmbedder => Return (FallbackEmbedder_encode texts)
  end.

(** The module's globals, the records logged so far, and the batches passed
    to [embedder.encode] so far. *)
Record process := {
  embedder : option Embedder;
  model_name : pystr;
  log : list (level * pystr);
  encode_calls : list (list pystr)
}.

(** The module as imported: [embedder = None] and the fixed model name. *)
Definition initial : process :=
  {| embedder := None;
     model_name := py "nomic-ai/nomic-embed-text-v2-moe";
     log := [];
     encode_calls := [] |}.

(** The process after one more log record. *)
Definition add_log (l : level) (message : pystr) (p : process) : process :=
  {| embedder := embedder p; model_name := model_name p;
     log := log p ++ [(l, message)]; encode_calls := encode_calls p |}.

(** The process after the assignment [embedder = e]. *)
Definition assign_embedder (e : Embedder) (p : process) : process :=
  {| embedder := Some e; model_name := model_name p;
     log := log p; encode_calls := encode_calls p |}.

(** The process after one more call of [embedder.encode]. *)
Definition add_call (batch : list pystr) (p : process) : process :=
  {| embedder := embedder p; model_name := model_name p;
     log := log p; encode_calls := encode_calls p ++ [batch] |}.

(** [logger.info], [logger.warning], [logger.error]. *)
Definition logger {E} (l : level) (message : pystr) : M process E unit :=
  modify (add_log l message).

(** [embedder = e]. *)
Definition set_embedder {E} (e : Embedder) : M process E unit :=
  modify (assign_embedder e).

(** The call [embedder.encode(texts)] on the global [embedder]. *)
Definition embedder_encode (batch : list pystr)
  : M process PyException (list (list num)) :=
  fun p =>
    match embedder p with
    | None =>
        (Raise {| is_ImportError := false;
                  exn_str := py "'NoneType' object has no attribute 'encode'" |}, p)
    | Some e => (encode e (encode_calls p) batch, add_call batch p)
    end.

(** ** load_model *)

(** What lies outside the process at startup: whether each library imports,
    and what constructing each encoder for a model name does. *)
Record Environment := {
  import_sentence_transformers : result PyException unit;
  new_SentenceTransformer : pystr -> result PyException encode_method;
  import_transformers_torch : result PyException unit;
  new_TransformersEmbedder : pystr -> result PyException encode_method
}.

(** [try: body / except ImportError: handler]. *)
Definition try_except_ImportError {A} (body handler : M process PyException A)
  : M process PyException A :=
  try_except body (fun e => if is_ImportError e then handler else raise e).

(** [load_model]; the inner blocks yield [true] where the source returns. *)
Definition load_model (env : Environment) : M process PyException unit :=
  try_except
    (name <- gets model_name ;;
     logger INFO (py "Loading model: " ++ name) ;;
     returned <- try_except_ImportError
       (lift (import_sentence_transformers env) ;;
        e <- lift (new_SentenceTransformer env name) ;;
        set_embedder (SentenceTransformer e) ;;
        logger INFO (py "Successfully loaded model with sentence-transformers") ;;
        ret true)
       (logger WARNING (py "sentence-transformers not available, trying transformers") ;;
        ret false) ;;
     if returned : bool then ret tt else
     (returned <- try_except_ImportError
        (lift (import_transformers_torch env) ;;
         e <- lift (new_TransformersEmbedder env name) ;;
         set_embedder (TransformersEmbedder e) ;;
         logger INFO (py "Successfully loaded model with transformers") ;;
         ret true)
        (logger WARNING (py "transformers not available, using fallback") ;;
         ret false) ;;
      if returned : bool then ret tt else
      (set_embedder FallbackEmbedder ;;
       logger WARNING (py "Using fallback embedder - install sentence-transformers or transformers for better results"))))
    (fun e => logger ERROR (py "Failed to load model: " ++ exn_str e) ;; raise e).

(** [startup_event]. *)
Definition startup_event (env : Environment) : M process PyException unit :=
  load_model env.

(** ** The endpoints *)

(** [health]. *)
Definition health (p : process) : HealthResponse :=
  {| health_status := py "healthy";
     health_model := model_name p;
     ready := match embedder p with Some _ => true | None => false end |}.

(** [emb.tolist()]: the same numbers, as a Python list. *)
Definition tolist (emb : list num) : list num := emb.

(** [sum(len(text.split()) for text in request.texts)]. *)
Definition count_words (ts : list pystr) : Z :=
  sum (map (fun text => Z.of_nat (length (split text))) ts).

(** [embed_texts]. *)
Definition embed_texts (request : EmbedRequest) : M process HTTPException EmbedResponse :=
  active <- gets embedder ;;
  match active with
  | None => raise {| status_code := 503; detail := py "Model not loaded" |}
  | Some _ =>
    match texts request with
    | [] => raise {| status_code := 400; detail := py "No texts provided" |}
    | _ :: _ =>
      if (100 <? Z.of_nat (length (texts request)))
      then raise {| status_code := 400; detail := py "Too many texts (max 100)" |}
      else
        try_except
          (logger INFO (py "Embedding " ++ str_of_nat (length (texts request)) ++ py " texts") ;;
           embeddings <- embedder_encode (texts request) ;;
           let embeddings_list := map tolist embeddings in
           name <- gets model_name ;;
           ret {| embeddings := embeddings_list;
                  response_model := or_else (model request) name;
                  usage := {| prompt_tokens := count_words (texts request);
                              total_tokens := count_words (texts request) |} |})
          (fun e =>
             logger ERROR (py "Error generating embeddings: " ++ exn_str e) ;;
             raise {| status_code := 500; detail := exn_str e |})
    end
  end.

(** The response of a call whose encoder returned [embs]. *)
Definition response_of (request : EmbedRequest) (p : process) (embs : list (list num))
  : EmbedResponse :=
  {| embeddings := embs;
     response_model := or_else (model request) (model_name p);
     usage := {| prompt_tokens := count_words (texts request);
                 total_tokens := count_words (texts request) |} |}.

(** The log record that opens the [try] block. *)
Definition embedding_record (request : EmbedRequest) : pystr :=
  py "Embedding " ++ str_of_nat (length (texts request)) ++ py " texts".

(** The first tier as a whole: the import, then the constructor. *)
Definition tier1 (env : Environment) (name : pystr) : result PyException encode_method :=
  match import_sentence_transformers env with
  | Return _ => new_SentenceTransformer env name
  | Raise e => Raise e
  end.

(** The second tier as a whole: the imports, then the constructor. *)
Definition tier2 (env : Environment) (name : pystr) : result PyException encode_method :=
  match import_transformers_torch env with
  | Return _ => new_TransformersEmbedder env name
  | Raise e => Raise e
  end.

End Server.

(** ** An instance of the arithmetic

    One implementation of the interface, to run the model at concrete
    inputs: real numbers in place of NumPy's floats. It does not round, has
    no NaN and divides by zero silently, so it says nothing about the
    arithmetic of the program; no property below is drawn from it. *)

Definition sum_squares (v : list R) : R :=
  fold_right (fun x acc => (x * x + acc)%R) 0%R v.

Definition real_gt0 (x : R) : bool :=
  if Rlt_dec 0 x then true else false.

Definition real_arithmetic : Numeric :=
  {| num := R;
     np_zero := 0%R;
     np_of_int := IZR;
     np_tenth := (1 / 10)%R;
     np_sin := sin;
     np_log := ln;
     np_mul := Rmult;
     np_add := Rplus;
     np_div := Rdiv;
     np_float32 := fun x => x;
     np_norm := fun v => sqrt (sum_squares v);
     np_gt0 := real_gt0 |}.

(** ** Concrete instances, for evaluating the model *)

(** ASCII text, whose lowercasing needs no Unicode table. *)
Definition ascii_text : Unicode := {| lower := ascii_lower |}.

(** A process in which [load_model] found neither library. *)
Definition fallback_process : process (numeric := real_arithmetic) :=
  assign_embedder FallbackEmbedder initial.

(** An environment with sentence-transformers installed and the model out
    of reach: constructing the encoder raises an [OSError]. *)
Definition offline_error : PyException :=
  {| is_ImportError := false; exn_str := py "We couldn't connect to 'https://huggingface.co'" |}.

Definition offline_environment : Environment (numeric := real_arithmetic) :=
  {| import_sentence_transformers := Return tt;
     new_SentenceTransformer := fun _ => Raise offline_error;
     import_transformers_torch := Return tt;
     new_TransformersEmbedder := fun _ => Raise offline_error |}.

(** An environment with neither library installed. *)
Definition missing_library (name : string) : PyException :=
  {| is_ImportError := true; exn_str := py "No module named " ++ py name |}.

Definition bare_environment : Environment (numeric := real_arithmetic) :=
  {| import_sentence_transformers := Raise (missing_library "sentence_transformers");
     new_SentenceTransformer := fun _ => Raise offline_error;
     import_transformers_torch := Raise (missing_library "transformers");
     new_TransformersEmbedder := fun _ => Raise offline_error |}.

(** An encoder that raises on every call. *)
Definition failing_error : PyException :=
  {| is_ImportError := false; exn_str := py "CUDA out of memory" |}.

Definition failing_process : process (numeric := real_arithmetic) :=
  assign_embedder (SentenceTransformer (fun _ _ => Raise failing_error)) initial.


(** Requests used below. *)
Definition hello_request : EmbedRequest :=
  {| texts := [py "Hello, world!"; py "abc"]; model := None |}.

Definition words_request : EmbedRequest :=
  {| texts := [py "a b c"; py "d e"]; model := None |}.

Definition named_request : EmbedRequest :=
  {| texts := [py "abc"]; model := Some (py "my-model") |}.

(** A request whose [model] field is the empty string. *)
Definition unnamed_request : EmbedRequest :=
  {| texts := [py "abc"]; model := Some [] |}.

(** A batch of [n] one-letter texts. *)
Definition batch_request (n : nat) : EmbedRequest :=
  {| texts := replicate n (py "x"); model := None |}.

(** ** The rest of the server *)

Section Session.
Context {unicode : Unicode} {numeric : Numeric}.

(** What [root] returns. *)
Record RootResponse := {
  message : pystr;
  root_model : pystr
}.

(** [root]. *)
Definition root (p : process) : RootResponse :=
  {| message := py "Nomic Embedding Server"; root_model := model_name p |}.

(** The requests of a session, handled one after the other: [embed_texts]
    awaits nothing, so the event loop runs each call to its end. *)
Fixpoint serve (requests : list EmbedRequest) (p : process)
  : list (result HTTPException EmbedResponse) * process :=
  match requests with
  | [] => ([], p)
  | request :: rest =>
      let (answer, p1) := embed_texts request p in
      let (answers, p2) := serve rest p1 in
      (answer :: answers, p2)
  end.

(** The two checks of [embed_texts] on the texts: not empty, at most 100. *)
Definition well_sized (request : EmbedRequest) : bool :=
  match texts request with
  | [] => false
  | _ :: _ => negb (100 <? Z.of_nat (length (texts request)))
  end.

(** The records of level [ERROR] in a log. *)
Definition is_error (record : level * pystr) : bool :=
  match fst record with ERROR => true | _ => false end.

Definition errors (p : process) : list (level * pystr) :=
  List.filter is_error (log p).

(** The entries the loop of [FallbackEmbedder.encode] may write to, and
    entry 0, which the length feature takes. *)
Definition touched (text_clean : pystr) : list nat :=
  O :: map (fun ic => Z.to_nat (index_of (fst ic) (snd ic)))
         (enumerate (take 100 text_clean)).

End Session.

(** ** test_server.py *)

(** [str(n)] for an [int]. *)
Definition str_of_int (n : Z) : pystr :=
  if n <? 0 then py "-" ++ str_of_nat (Z.to_nat (- n)) else str_of_nat (Z.to_nat n).

(** The payloads of tests 2 and 3. *)
Definition single_batch : list pystr := [py "Hello, world!"].

Definition triple_batch : list pystr :=
  [py "This is the first sentence.";
   py "Here's another sentence.";
   py "And one more for good measure."].

(** The marks the script prints: U+2705, U+274C, U+26A0 U+FE0F, U+1F389. *)
Definition check_mark : pystr := [0x2705].
Definition cross_mark : pystr := [0x274C].
Definition warning_sign : pystr := [0x26A0; 0xFE0F].
Definition party_popper : pystr := [0x1F389].

(** An HTTP response: [response.status_code] and what the rest is read from. *)
Record Response (Body : Type) := {
  response_status : Z;
  response_body : Body
}.
Arguments response_status {Body} r.
Arguments response_body {Body} r.

(** The state of a run of the script: the world beyond the client, which
    the requests act on, and the lines written to standard output. *)
Record run (World : Type) := {
  world : World;
  printed : list pystr
}.
Arguments world {World} r.
Arguments printed {World} r.

(** Whether a result is a return. *)
Definition returns {E A} (r : result E A) : bool :=
  match r with Return _ => true | Raise _ => false end.

Section Client.
Context {World Body Data : Type}.

(** [requests.get(url, timeout=...)] and [requests.post(url, json={"texts":
    batch}, ...)]: each acts on the world and answers or raises. *)
Variable get : pystr -> M World PyException (Response Body).
Variable post : pystr -> list pystr -> M World PyException (Response Body).

(** What the script does with a response and with the values decoded from
    it, each returning or raising as Python decides from the data:
    [response.json()], [response.text], [d[key]], [d[i]], [len(d)], the text
    of [d] in an f-string, of [[len(emb) for emb in d]] in an f-string, and
    of [sum(a*b for a, b in zip(d1, d2))] under the format [.4f]. *)
Variable json : Body -> result PyException Data.
Variable text : Body -> result PyException pystr.
Variable item : Data -> string -> result PyException Data.
Variable index : Data -> nat -> result PyException Data.
Variable len : Data -> result PyException nat.
Variable format : Data -> result PyException pystr.
Variable dimensions : Data -> result PyException pystr.
Variable similarity : Data -> Data -> result PyException pystr.

(** Standard output: writing a line after the lines [out] goes through or
    raises (an encoding that lacks a character, a closed stream). *)
Variable stdout_error : list pystr -> pystr -> option PyException.

(** [print(line)]. *)
Definition print (line : pystr) : M (run World) PyException unit :=
  fun st =>
    match stdout_error (printed st) line with
    | Some e => (Raise e, st)
    | None => (Return tt, {| world := world st; printed := printed st ++ [line] |})
    end.

(** A request made during a run. *)
Definition request {A} (c : M World PyException A) : M (run World) PyException A :=
  fun st =>
    let (r, w) := c (world st) in (r, {| world := w; printed := printed st |}).

(** The text of [{d[key]}] in an f-string. *)
Definition field (d : Data) (key : string) : result PyException pystr :=
  match item d key with
  | Return v => format v
  | Raise e => Raise e
  end.

(** Test 1; [true] where control goes on to the next test, [false] where
    the script returns [False]. *)
Definition test_health (base_url : pystr) : M (run World) PyException bool :=
  try_except
    (response <- request (get (base_url ++ py "/health")) ;;
     if response_status response =? 200 then
       (health_data <- lift (json (response_body response)) ;;
        print (check_mark ++ py " Health check passed") ;;
        status <- lift (field health_data "status") ;;
        print (py "   Status: " ++ status) ;;
        model <- lift (field health_data "model") ;;
        print (py "   Model: " ++ model) ;;
        ready <- lift (field health_data "ready") ;;
        print (py "   Ready: " ++ ready) ;;
        ret true)
     else
       (print (cross_mark ++ py " Health check failed: "
                 ++ str_of_int (response_status response)) ;;
        ret false))
    (fun e =>
       print (cross_mark ++ py " Health check failed: " ++ exn_str e) ;;
       ret false).

(** Test 2. *)
Definition test_single (base_url : pystr) : M (run World) PyException bool :=
  try_except
    (response <- request (post (base_url ++ py "/embed") single_batch) ;;
     if response_status response =? 200 then
       (data <- lift (json (response_body response)) ;;
        embeddings <- lift (item data "embeddings") ;;
        print (check_mark ++ py " Single embedding successful") ;;
        first <- lift (index embeddings 0) ;;
        dimension <- lift (len first) ;;
        print (py "   Embedding dimension: " ++ str_of_nat dimension) ;;
        model <- lift (field data "model") ;;
        print (py "   Model: " ++ model) ;;
        usage <- lift (field data "usage") ;;
        print (py "   Token usage: " ++ usage) ;;
        ret true)
     else
       (print (cross_mark ++ py " Single embedding failed: "
                 ++ str_of_int (response_status response)) ;;
        body <- lift (text (response_body response)) ;;
        print (py "   Response: " ++ body) ;;
        ret false))
    (fun e =>
       print (cross_mark ++ py " Single embedding failed: " ++ exn_str e) ;;
       ret false).

(** Test 3. *)
Definition test_batch (base_url : pystr) : M (run World) PyException bool :=
  try_except
    (response <- request (post (base_url ++ py "/embed") triple_batch) ;;
     if response_status response =? 200 then
       (data <- lift (json (response_body response)) ;;
        embeddings <- lift (item data "embeddings") ;;
        print (check_mark ++ py " Batch embedding successful") ;;
        count <- lift (len embeddings) ;;
        print (py "   Number of embeddings: " ++ str_of_nat count) ;;
        sizes <- lift (dimensions embeddings) ;;
        print (py "   Embedding dimensions: " ++ sizes) ;;
        count <- lift (len embeddings) ;;
        if (1 <? count)%nat then
          (emb1 <- lift (index embeddings 0) ;;
           emb2 <- lift (index embeddings 1) ;;
           value <- lift (similarity emb1 emb2) ;;
           print (py "   Similarity between first two: " ++ value) ;;
           ret true)
        else ret true)
     else
       (print (cross_mark ++ py " Batch embedding failed: "
                 ++ str_of_int (response_status response)) ;;
        body <- lift (text (response_body response)) ;;
        print (py "   Response: " ++ body) ;;
        ret false))
    (fun e =>
       print (cross_mark ++ py " Batch embedding failed: " ++ exn_str e) ;;
       ret false).

(** Test 4: the status decides only which line is printed. *)
Definition test_empty (base_url : pystr) : M (run World) PyException bool :=
  try_except
    (response <- request (post (base_url ++ py "/embed") []) ;;
     if response_status response =? 400 then
       (print (check_mark ++ py " Empty input properly rejected") ;; ret true)
     else
       (print (warning_sign ++ py "  Empty input returned: "
                 ++ str_of_int (response_status response)) ;;
        ret true))
    (fun e =>
       print (cross_mark ++ py " Error handling test failed: " ++ exn_str e) ;;
       ret false).

(** [test_server]. *)
Definition test_server (base_url : pystr) : M (run World) PyException bool :=
  print (py "Testing embedding server at " ++ base_url) ;;
  print (10 :: py "1. Testing health endpoint...") ;;
  passed <- test_health base_url ;;
  if passed : bool then
    (print (10 :: py "2. Testing single text embedding...") ;;
     passed <- test_single base_url ;;
     if passed : bool then
       (print (10 :: py "3. Testing batch embedding...") ;;
        passed <- test_batch base_url ;;
        if passed : bool then
          (print (10 :: py "4. Testing error handling...") ;;
           passed <- test_empty base_url ;;
           if passed : bool then
             (print (10 :: party_popper
                       ++ py " All tests passed! Server is working correctly.") ;;
              ret true)
           else ret false)
        else ret false)
     else ret false)
  else ret false.

(** What test 1 reads from the body of a 200 response, without the
    printing: returns when every read does. *)
Definition health_reads (body : Body) : result PyException unit :=
  match json body with
  | Return d =>
      match field d "status", field d "model", field d "ready" with
      | Return _, Return _, Return _ => Return tt
      | Raise e, _, _ | Return _, Raise e, _ | Return _, Return _, Raise e => Raise e
      end
  | Raise e => Raise e
  end.

(** What test 2 reads. *)
Definition single_reads (body : Body) : result PyException unit :=
  match json body with
  | Return d =>
      match item d "embeddings" with
      | Return embeddings =>
          match index embeddings 0 with
          | Return first =>
              match len first, field d "model", field d "usage" with
              | Return _, Return _, Return _ => Return tt
              | Raise e, _, _ | Return _, Raise e, _ | Return _, Return _, Raise e =>
                  Raise e
              end
          | Raise e => Raise e
          end
      | Raise e => Raise e
      end
  | Raise e => Raise e
  end.

(** What test 3 reads. *)
Definition batch_reads (body : Body) : result PyException unit :=
  match json body with
  | Return d =>
      match item d "embeddings" with
      | Return embeddings =>
          match len embeddings, dimensions embeddings with
          | Return count, Return _ =>
              if (1 <? count)%nat then
                match index embeddings 0, index embeddings 1 with
                | Return emb1, Return emb2 =>
                    match similarity emb1 emb2 with
                    | Return _ => Return tt
                    | Raise e => Raise e
                    end
                | Raise e, _ | Return _, Raise e => Raise e
                end
              else Return tt
          | Raise e, _ | Return _, Raise e => Raise e
          end
      | Raise e => Raise e
      end
  | Raise e => Raise e
  end.

(** A request answered 200 with a body the test can read. *)
Definition answered_200 (reads : Body -> result PyException unit)
    (reply : result PyException (Response Body)) : bool :=
  match reply with
  | Return response =>
      (response_status response =? 200) && returns (reads (response_body response))
  | Raise _ => false
  end.

End Client.

(** A standard output that takes every line. *)
Definition unicode_stdout (out : list pystr) (line : pystr) : option PyException :=
  None.

Definition UnicodeEncodeError : PyException :=
  {| is_ImportError := false;
     exn_str := py "'ascii' codec can't encode character" |}.

(** A standard output whose encoding is ASCII. *)
Definition ascii_stdout (out : list pystr) (line : pystr) : option PyException :=
  if forallb (fun c => c <=? 127) line then None else Some UnicodeEncodeError.

(** A world with no server listening: every request raises. *)
Definition ConnectionError : PyException :=
  {| is_ImportError := false; exn_str := py "Connection refused" |}.

Definition no_server_get (url : pystr) : M unit PyException (Response unit) :=
  raise ConnectionError.

Definition no_server_post (url : pystr) (batch : list pystr)
  : M unit PyException (Response unit) :=
  raise ConnectionError.

(** The script run with no server listening, on a given standard output;
    nothing is ever read from a response. *)
Definition test_no_server (stdout_error : list pystr -> pystr -> option PyException)
  : result PyException bool * run unit :=
  test_server no_server_get no_server_post
    (fun _ => Return tt) (fun _ => Return []) (fun _ _ => Return tt)
    (fun _ _ => Return tt) (fun _ => Return O) (fun _ => Return [])
    (fun _ => Return []) (fun _ _ => Return [])
    stdout_error (py "http://127.0.0.1:8000")
    {| world := tt; printed := [] |}.

(** A proof step: split on the next result an outcome depends on. *)
Ltac next_case :=
  match goal with
  | |- context [match ?x with _ => _ end] =>
      lazymatch x with
      | context [match _ with _ => _ end] => fail
      | _ => destruct x eqn:?
      end
  end.

(** * Properties *)

(** ** The vector FallbackEmbedder builds *)

Section FallbackFacts.
Context {unicode : Unicode} {numeric : Numeric}.

(** The index the loop writes to is inside the vector: no [IndexError]. *)
Lemma index_of_bound (i : nat) (c : Z) : (Z.to_nat (index_of i c) < 768)%nat.
Proof.
  unfold index_of.
  pose proof (Z.mod_pos_bound (c * 7 + Z.of_nat i * 11) 768 ltac:(lia)).
  lia.
Qed.

Lemma accumulate_length (v : list num) (ic : nat * Z) :
  length (accumulate v ic) = length v.
Proof. destruct ic as [i c]. apply length_alter. Qed.

Lemma fold_accumulate_length (l : list (nat * Z)) (v : list num) :
  length (fold_left accumulate l v) = length v.
Proof.
  revert v. induction l as [|ic l IH]; intros v; simpl; [reflexivity|].
  rewrite IH. apply accumulate_length.
Qed.

(** One component through one turn of the loop. *)
Lemma accumulate_lookup (v : list num) (ic : nat * Z) (k : nat) (x : num) :
  v !! k = Some x -> accumulate v ic !! k = Some (spec_add k x ic).
Proof.
  intros Hk. destruct ic as [i c]. unfold accumulate, spec_add.
  rewrite list_lookup_alter.
  destruct (decide (Z.to_nat (index_of i c) = k)) as [->|Hne].
  - rewrite Hk. reflexivity.
  - exact Hk.
Qed.

(** One component through the whole loop: only the characters that hash to
    [k] touch it, in the order of the text. *)
Lemma fold_accumulate_lookup (l : list (nat * Z)) (v : list num) (k : nat) (x : num) :
  v !! k = Some x ->
  fold_left accumulate l v !! k = Some (fold_left (spec_add k) l x).
Proof.
  revert v x. induction l as [|ic l IH]; intros v x Hk; simpl; [exact Hk|].
  apply IH. apply accumulate_lookup. exact Hk.
Qed.

Lemma raw_embedding_length (text : pystr) : length (raw_embedding text) = 768%nat.
Proof.
  unfold raw_embedding. rewrite length_insert, fold_accumulate_length.
  apply length_replicate.
Qed.

Lemma raw_embedding_first (text : pystr) :
  raw_embedding text !! 0%nat
  = Some (np_float32 (length_feature (strip (lower text)))).
Proof.
  unfold raw_embedding. apply list_lookup_insert_eq.
  rewrite fold_accumulate_length, length_replicate. lia.
Qed.

(** With nothing left of the text the loop does not run. *)
Lemma raw_embedding_empty (text : pystr) :
  strip (lower text) = [] ->
  raw_embedding text
  = <[0%nat := np_float32 (length_feature [])]> (replicate 768 np_zero).
Proof. intros Hempty. unfold raw_embedding. rewrite Hempty. reflexivity. Qed.

Lemma raw_embedding_spec (text : pystr) : raw_embedding text = spec_vector text.
Proof.
  apply list_eq. intros k. unfold raw_embedding, spec_vector.
  change (map ?f ?l) with (f <$> l). rewrite list_lookup_fmap.
  set (t := strip (lower text)).
  destruct (decide (k < 768)%nat) as [Hlt|Hge].
  - rewrite (lookup_seq_lt 0 768 k Hlt).
    cbn [fmap option_fmap option_map Nat.add].
    destruct k as [|k]; cbn [spec_component].
    + rewrite list_lookup_insert_eq; [reflexivity|].
      rewrite fold_accumulate_length, length_replicate. lia.
    + rewrite list_lookup_insert_ne by lia.
      apply fold_accumulate_lookup. apply lookup_replicate_2. exact Hlt.
  - rewrite (lookup_seq_ge 0 768 k) by lia.
    cbn [fmap option_fmap option_map].
    apply lookup_ge_None.
    rewrite length_insert, fold_accumulate_length, length_replicate. lia.
Qed.

(** Two characters that hash to the same index both count: in a text that
    starts with U+013E and "a", positions 0 and 1 both add to entry 690. *)
Lemma collisions_accumulate :
  index_of 0 318 = 690 /\ index_of 1 97 = 690
  /\ spec_component [318; 97] 690
     = np_float32 (np_add (np_float32 (np_add np_zero (char_feature 0 318)))
                          (char_feature 1 97)).
Proof. repeat split. Qed.



(** What [lstrip] removes is whitespace, and what it leaves does not start
    with whitespace. *)
Lemma lstrip_split (s : pystr) :
  exists ws,
    s = ws ++ lstrip s
    /\ forallb isspace ws = true
    /\ forall c, head (lstrip s) = Some c -> isspace c = false.
Proof.
  induction s as [|c s (ws & Heq & Hws & Hhead)].
  - exists []. repeat split. intros c Hc. discriminate Hc.
  - cbn [lstrip]. destruct (isspace c) eqn:Hc.
    + exists (c :: ws). cbn [app forallb]. rewrite Hc, Hws.
      split; [rewrite <- Heq; reflexivity|]. split; [reflexivity|exact Hhead].
    + exists []. repeat split. intros c' [= <-]. exact Hc.
Qed.

Lemma last_rev (s : pystr) : last (rev s) = head s.
Proof. destruct s as [|c s]; [reflexivity|]. cbn [rev]. apply last_snoc. Qed.

Lemma forallb_rev (f : Z -> bool) (s : pystr) : forallb f (rev s) = forallb f s.
Proof.
  induction s as [|c s IH]; [reflexivity|].
  cbn [rev forallb]. rewrite forallb_app, IH. cbn [forallb].
  rewrite andb_true_r. apply andb_comm.
Qed.

(** What [rstrip] removes is whitespace, and what it leaves does not end
    with whitespace. *)
Lemma rstrip_split (s : pystr) :
  exists ws,
    s = rstrip s ++ ws
    /\ forallb isspace ws = true
    /\ forall c, last (rstrip s) = Some c -> isspace c = false.
Proof.
  destruct (lstrip_split (rev s)) as (ws & Heq & Hws & Hhead).
  exists (rev ws). unfold rstrip. split; [|split].
  - rewrite <- rev_app_distr, <- Heq, rev_involutive. reflexivity.
  - rewrite forallb_rev. exact Hws.
  - intros c. rewrite last_rev. apply Hhead.
Qed.

(** [strip] takes whitespace, and only whitespace, off both ends. *)
Lemma strip_split (s : pystr) :
  exists ws1 ws2,
    s = ws1 ++ strip s ++ ws2
    /\ forallb isspace ws1 = true
    /\ forallb isspace ws2 = true
    /\ (forall c, head (strip s) = Some c -> isspace c = false)
    /\ (forall c, last (strip s) = Some c -> isspace c = false).
Proof.
  destruct (lstrip_split s) as (ws1 & Heq1 & Hws1 & Hhead).
  destruct (rstrip_split (lstrip s)) as (ws2 & Heq2 & Hws2 & Hlast).
  exists ws1, ws2. unfold strip.
  split; [rewrite <- Heq2; exact Heq1|]. split; [exact Hws1|].
  split; [exact Hws2|]. split; [|exact Hlast].
  intros c Hc. apply Hhead. rewrite Heq2.
  destruct (rstrip (lstrip s)); [discriminate Hc|exact Hc].
Qed.

Lemma lstrip_blank (ws s : pystr) :
  forallb isspace ws = true -> lstrip (ws ++ s) = lstrip s.
Proof.
  induction ws as [|c ws IH]; intros Hws; [reflexivity|].
  cbn [forallb] in Hws. apply andb_true_iff in Hws as [Hc Hws].
  cbn [app lstrip]. rewrite Hc. apply IH, Hws.
Qed.

Lemma lstrip_kept (s : pystr) :
  (forall c, head s = Some c -> isspace c = false) -> lstrip s = s.
Proof.
  destruct s as [|c s]; intros Hhead; [reflexivity|].
  cbn [lstrip]. rewrite (Hhead c eq_refl). reflexivity.
Qed.

(** The normalized text is the only text between two runs of whitespace
    that neither starts nor ends with whitespace. *)
Lemma strip_unique (t ws1 ws2 : pystr) :
  forallb isspace ws1 = true ->
  forallb isspace ws2 = true ->
  (forall c, head t = Some c -> isspace c = false) ->
  (forall c, last t = Some c -> isspace c = false) ->
  strip (ws1 ++ t ++ ws2) = t.
Proof.
  intros Hws1 Hws2 Hhead Hlast. unfold strip, rstrip.
  rewrite lstrip_blank by exact Hws1.
  destruct t as [|c t].
  - cbn [app]. pose proof (lstrip_blank ws2 [] Hws2) as Hblank.
    rewrite app_nil_r in Hblank. rewrite Hblank. reflexivity.
  - rewrite (lstrip_kept ((c :: t) ++ ws2)) by (intros c' [= <-]; apply Hhead; reflexivity).
    rewrite rev_app_distr, lstrip_blank by (rewrite forallb_rev; exact Hws2).
    rewrite lstrip_kept; [apply rev_involutive|].
    intros c'. rewrite <- last_rev, rev_involutive. apply Hlast.
Qed.

Lemma enumerate_from_combine (i : nat) (s : pystr) :
  enumerate_from i s = combine (seq i (length s)) s.
Proof.
  revert i. induction s as [|c s IH]; intros i; [reflexivity|].
  cbn [enumerate_from length seq combine]. rewrite IH. reflexivity.
Qed.

Lemma fold_left_pointwise {A B : Type} (f g : A -> B -> A) (l : list B) (a : A) :
  (forall x y, f x y = g x y) -> fold_left f l a = fold_left g l a.
Proof.
  intros Hfg. revert a. induction l as [|y l IH]; intros a; [reflexivity|].
  cbn [fold_left]. rewrite Hfg. apply IH.
Qed.

(** C1. For every text there is the normalized text [t]: the lowercased text
    with whitespace, and only whitespace, taken off both ends. The vector
    [FallbackEmbedder.encode] builds from it has 768 entries; entry 0 is
    [log(len(t) + 1) * 0.1], whatever the loop left there; every other entry
    [k] is what the first 100 characters of [t] add to zero, in text order
    and one on top of the other: the character of code [c] at position [i]
    adds [sin(c + i) * 0.1] when [(c*7 + i*11) mod 768 = k] and nothing
    otherwise. The embedding returned is that vector, divided by its norm
    when the norm is positive. *)
Theorem C1_fallback_vector (text : pystr) :
  exists t ws1 ws2 : pystr,
    lower text = ws1 ++ t ++ ws2
    /\ forallb isspace ws1 = true
    /\ forallb isspace ws2 = true
    /\ (forall c, head t = Some c -> isspace c = false)
    /\ (forall c, last t = Some c -> isspace c = false)
    /\ length (raw_embedding text) = 768%nat
    /\ raw_embedding text !! 0%nat
       = Some (np_float32
                 (np_mul (np_log (np_of_int (Z.of_nat (length t) + 1))) np_tenth))
    /\ (forall k : nat, (0 < k < 768)%nat ->
        raw_embedding text !! k
        = Some (fold_left
                  (fun acc ic =>
                     if decide (Z.to_nat ((snd ic * 7 + Z.of_nat (fst ic) * 11) mod 768) = k)
                     then np_float32
                            (np_add acc
                               (np_mul (np_sin (np_of_int (snd ic + Z.of_nat (fst ic))))
                                       np_tenth))
                     else acc)
                  (combine (seq 0 (length (take 100 t))) (take 100 t))
                  np_zero))
    /\ encode_text text
       = if np_gt0 (np_norm (raw_embedding text))
         then map (fun x => np_float32 (np_div x (np_norm (raw_embedding text))))
                  (raw_embedding text)
         else raw_embedding text.
Proof.
  destruct (strip_split (lower text)) as (ws1 & ws2 & Heq & Hws1 & Hws2 & Hhead & Hlast).
  exists (strip (lower text)), ws1, ws2.
  split; [exact Heq|]. split; [exact Hws1|]. split; [exact Hws2|].
  split; [exact Hhead|]. split; [exact Hlast|].
  split; [apply raw_embedding_length|].
  split; [apply raw_embedding_first|].
  split; [|reflexivity].
  intros k [Hpos Hk]. rewrite raw_embedding_spec. unfold spec_vector.
  change (map ?f ?l) with (f <$> l).
  rewrite list_lookup_fmap, (lookup_seq_lt 0 768 k Hk).
  cbn [fmap option_fmap option_map Nat.add].
  destruct k as [|k]; [lia|]. cbn [spec_component].
  unfold enumerate. rewrite enumerate_from_combine. f_equal.
  apply fold_left_pointwise. intros acc [i c]. reflexivity.
Qed.

End FallbackFacts.

(** ** The embed operation *)

Section ServerFacts.
Context {unicode : Unicode} {numeric : Numeric}.

(** [embed_texts], one case per path through the handler. *)
Lemma embed_texts_cases (request : EmbedRequest) (p : process) :
  embed_texts request p =
  match embedder p with
  | None => (Raise {| status_code := 503; detail := py "Model not loaded" |}, p)
  | Some active =>
    match texts request with
    | [] => (Raise {| status_code := 400; detail := py "No texts provided" |}, p)
    | _ :: _ =>
      if 100 <? Z.of_nat (length (texts request))
      then (Raise {| status_code := 400; detail := py "Too many texts (max 100)" |}, p)
      else
        let p1 := add_call (texts request) (add_log INFO (embedding_record request) p) in
        match encode active (encode_calls p) (texts request) with
        | Return embs => (Return (response_of request p embs), p1)
        | Raise e =>
            (Raise {| status_code := 500; detail := exn_str e |},
             add_log ERROR (py "Error generating embeddings: " ++ exn_str e) p1)
        end
    end
  end.
Proof.
  unfold embed_texts, bind, gets. cbn beta iota.
  destruct (embedder p) as [active|] eqn:Hactive; [|reflexivity].
  destruct (texts request) as [|t ts] eqn:Htexts; [reflexivity|].
  destruct (100 <? Z.of_nat (length (t :: ts))) eqn:Hlen; [reflexivity|].
  unfold try_except, bind, logger, modify, embedder_encode, raise, ret, gets.
  cbn beta iota. cbn [embedder add_log]. rewrite Hactive.
  cbn [encode_calls add_log].
  unfold embedding_record. rewrite Htexts.
  destruct (encode active (encode_calls p) (t :: ts)) as [embs|e]; cbn beta iota.
  - unfold response_of, tolist. rewrite map_id. rewrite Htexts. reflexivity.
  - reflexivity.
Qed.

(** A request that passes the three checks reaches the encoder once. *)
Lemma embed_texts_accepted (request : EmbedRequest) (p : process) (active : Embedder) :
  embedder p = Some active ->
  (1 <= length (texts request) <= 100)%nat ->
  embed_texts request p =
  let p1 := add_call (texts request) (add_log INFO (embedding_record request) p) in
  match encode active (encode_calls p) (texts request) with
  | Return embs => (Return (response_of request p embs), p1)
  | Raise e =>
      (Raise {| status_code := 500; detail := exn_str e |},
       add_log ERROR (py "Error generating embeddings: " ++ exn_str e) p1)
  end.
Proof.
  intros Hactive Hlen. rewrite embed_texts_cases, Hactive.
  destruct (texts request) as [|t ts] eqn:Htexts; [simpl in Hlen; lia|].
  destruct (100 <? Z.of_nat (length (t :: ts))) eqn:Hmax; [|reflexivity].
  apply Z.ltb_lt in Hmax. lia.
Qed.

(** Every successful call went through the three checks and one [encode]. *)
Lemma embed_texts_returns (request : EmbedRequest) (p p' : process) (resp : EmbedResponse) :
  embed_texts request p = (Return resp, p') ->
  exists active embs,
    embedder p = Some active
    /\ (1 <= length (texts request) <= 100)%nat
    /\ encode active (encode_calls p) (texts request) = Return embs
    /\ resp = response_of request p embs
    /\ p' = add_call (texts request) (add_log INFO (embedding_record request) p).
Proof.
  rewrite embed_texts_cases.
  destruct (embedder p) as [active|]; [|discriminate].
  destruct (texts request) as [|t ts] eqn:Htexts; [discriminate|].
  destruct (100 <? Z.of_nat (length (t :: ts))) eqn:Hmax; [discriminate|].
  apply Z.ltb_ge in Hmax.
  destruct (encode active (encode_calls p) (t :: ts)) as [embs|e] eqn:Henc;
    cbn zeta; intros Heq; [|discriminate].
  injection Heq as <- <-.
  exists active, embs. simpl length in *. repeat split; try lia; done.
Qed.

(** C5. The embed operation answers 503 "Model not loaded" when no encoder
    has been resolved; with an encoder resolved it answers 400 "No texts
    provided" to an empty batch and 400 "Too many texts (max 100)" to a batch
    of more than 100 texts; a batch of exactly 100 texts passes the checks:
    it is handed to the encoder, and with the fallback encoder it succeeds. *)
Theorem C5_error_responses (request : EmbedRequest) (p : process) :
  (embedder p = None ->
   fst (embed_texts request p)
   = Raise {| status_code := 503; detail := py "Model not loaded" |})
  /\ (embedder p <> None -> texts request = [] ->
      fst (embed_texts request p)
      = Raise {| status_code := 400; detail := py "No texts provided" |})
  /\ (embedder p <> None -> (100 < length (texts request))%nat ->
      fst (embed_texts request p)
      = Raise {| status_code := 400; detail := py "Too many texts (max 100)" |})
  /\ (forall active, embedder p = Some active ->
      length (texts request) = 100%nat ->
      encode_calls (snd (embed_texts request p)) = encode_calls p ++ [texts request]
      /\ fst (embed_texts request p)
         = match encode active (encode_calls p) (texts request) with
           | Return embs => Return (response_of request p embs)
           | Raise e => Raise {| status_code := 500; detail := exn_str e |}
           end)
  /\ (embedder p = Some FallbackEmbedder ->
      length (texts request) = 100%nat ->
      fst (embed_texts request p)
      = Return (response_of request p (FallbackEmbedder_encode (texts request)))).
Proof.
  split; [|split; [|split; [|split]]].
  - intros Hnone. rewrite embed_texts_cases, Hnone. reflexivity.
  - intros Hsome Hempty. rewrite embed_texts_cases, Hempty.
    destruct (embedder p); [reflexivity|congruence].
  - intros Hsome Hmany. rewrite embed_texts_cases.
    destruct (embedder p); [|congruence].
    destruct (texts request) as [|t ts] eqn:Htexts; [simpl in Hmany; lia|].
    destruct (100 <? Z.of_nat (length (t :: ts))) eqn:Hmax; [reflexivity|].
    apply Z.ltb_ge in Hmax. lia.
  - intros active Hactive Hlen.
    rewrite (embed_texts_accepted request p active Hactive) by lia. cbn zeta.
    destruct (encode active (encode_calls p) (texts request)); split; reflexivity.
  - intros Hactive Hlen.
    rewrite (embed_texts_accepted request p _ Hactive) by lia. reflexivity.
Qed.

(** C10. The checks come in a fixed order and before the encoder: with no
    encoder resolved the answer is 503 whatever the texts are (empty, too
    many or fine); otherwise an empty batch is refused before its size is
    looked at; and a refused request leaves the process as it was: the
    encoder's [encode] is not called. *)
Theorem C10_checks_precede_encoding (request : EmbedRequest) (p : process) :
  (embedder p = None ->
   embed_texts request p
   = (Raise {| status_code := 503; detail := py "Model not loaded" |}, p))
  /\ (embedder p <> None -> texts request = [] ->
      embed_texts request p
      = (Raise {| status_code := 400; detail := py "No texts provided" |}, p))
  /\ (embedder p <> None -> (100 < length (texts request))%nat ->
      embed_texts request p
      = (Raise {| status_code := 400; detail := py "Too many texts (max 100)" |}, p))
  /\ (embedder p = None \/ texts request = [] \/ (100 < length (texts request))%nat ->
      encode_calls (snd (embed_texts request p)) = encode_calls p).
Proof.
  assert (Hnone : embedder p = None ->
    embed_texts request p
    = (Raise {| status_code := 503; detail := py "Model not loaded" |}, p)).
  { intros Hnone. rewrite embed_texts_cases, Hnone. reflexivity. }
  assert (Hempty : embedder p <> None -> texts request = [] ->
    embed_texts request p
    = (Raise {| status_code := 400; detail := py "No texts provided" |}, p)).
  { intros Hsome Hempty. rewrite embed_texts_cases, Hempty.
    destruct (embedder p); [reflexivity|congruence]. }
  assert (Hmany : embedder p <> None -> (100 < length (texts request))%nat ->
    embed_texts request p
    = (Raise {| status_code := 400; detail := py "Too many texts (max 100)" |}, p)).
  { intros Hsome Hmany. rewrite embed_texts_cases.
    destruct (embedder p); [|congruence].
    destruct (texts request) as [|t ts] eqn:Htexts; [simpl in Hmany; lia|].
    destruct (100 <? Z.of_nat (length (t :: ts))) eqn:Hmax; [reflexivity|].
    apply Z.ltb_ge in Hmax. lia. }
  split; [exact Hnone|]. split; [exact Hempty|]. split; [exact Hmany|].
  intros Hrefused.
  destruct (embedder p) as [active|] eqn:Hactive.
  - destruct Hrefused as [Hr|[Hr|Hr]]; [discriminate| |].
    + rewrite Hempty; [reflexivity|discriminate|exact Hr].
    + rewrite Hmany; [reflexivity|discriminate|exact Hr].
  - rewrite Hnone; reflexivity.
Qed.

(** C6. On a request that passes the checks, an exception raised by the
    active encoder's [encode] becomes the answer 500 whose detail is the
    exception's message; [encode] was called once, not again; and the
    process keeps its encoder and model name: the service is still ready. *)
Theorem C6_encoding_failure (request : EmbedRequest) (p : process)
    (active : Embedder) (e : PyException) :
  embedder p = Some active ->
  (1 <= length (texts request) <= 100)%nat ->
  encode active (encode_calls p) (texts request) = Raise e ->
  fst (embed_texts request p) = Raise {| status_code := 500; detail := exn_str e |}
  /\ encode_calls (snd (embed_texts request p)) = encode_calls p ++ [texts request]
  /\ embedder (snd (embed_texts request p)) = Some active
  /\ model_name (snd (embed_texts request p)) = model_name p
  /\ ready (health (snd (embed_texts request p))) = true.
Proof.
  intros Hactive Hlen Hraise.
  rewrite (embed_texts_accepted request p active Hactive Hlen), Hraise.
  cbn. rewrite Hactive. repeat split; reflexivity.
Qed.


(** C7. In every successful response, [prompt_tokens] and [total_tokens]
    are both the sum over the texts of the number of words [split()] finds
    in each, words being separated by whitespace; for the texts "a b c" and
    "d e" both are 5. *)
Theorem C7_usage_counts_words (request : EmbedRequest) (p p' : process)
    (resp : EmbedResponse) :
  embed_texts request p = (Return resp, p') ->
  prompt_tokens (usage resp)
  = sum (map (fun text => Z.of_nat (length (split text))) (texts request))
  /\ total_tokens (usage resp)
     = sum (map (fun text => Z.of_nat (length (split text))) (texts request))
  /\ (texts request = [py "a b c"; py "d e"] ->
      prompt_tokens (usage resp) = 5 /\ total_tokens (usage resp) = 5).
Proof.
  intros Hcall.
  destruct (embed_texts_returns request p p' resp Hcall)
    as (active & embs & _ & _ & _ & -> & _).
  cbn [usage response_of prompt_tokens total_tokens]. unfold count_words.
  split; [reflexivity|]. split; [reflexivity|].
  intros ->. split; reflexivity.
Qed.

(** C8, as the code has it. In every successful response the model field is
    the requested model name when the request carries a non-empty one, and
    the process's model name when the request carries none or an empty
    string; and the requested model changes nothing else: with any other
    model field the same call succeeds with the same embeddings and the same
    single call of the same active encoder. *)
Theorem C8_model_label (request : EmbedRequest) (p p' : process)
    (resp : EmbedResponse) :
  embed_texts request p = (Return resp, p') ->
  response_model resp
  = match model request with
    | Some (c :: name) => c :: name
    | Some [] | None => model_name p
    end
  /\ forall other : option pystr,
       exists resp',
         embed_texts {| texts := texts request; model := other |} p = (Return resp', p')
         /\ embeddings resp' = embeddings resp
         /\ embedder p' = embedder p.
Proof.
  intros Hcall.
  destruct (embed_texts_returns request p p' resp Hcall)
    as (active & embs & Hactive & Hlen & Henc & -> & ->).
  split; [reflexivity|].
  intros other.
  exists (response_of {| texts := texts request; model := other |} p embs).
  split; [|split; reflexivity].
  rewrite (embed_texts_accepted _ p active Hactive) by exact Hlen.
  cbn [texts]. rewrite Henc. reflexivity.
Qed.

End ServerFacts.

(** ** Encoder resolution *)

Section ResolverFacts.
Context {numeric : Numeric}.

(** [load_model], one case per path through it. *)
Lemma load_model_cases (env : Environment) (p : process) :
  load_model env p =
  let name := model_name p in
  let p0 := add_log INFO (py "Loading model: " ++ name) p in
  match tier1 env name with
  | Return f =>
      (Return tt,
       add_log INFO (py "Successfully loaded model with sentence-transformers")
         (assign_embedder (SentenceTransformer f) p0))
  | Raise e1 =>
      if is_ImportError e1 then
        let p1 := add_log WARNING
          (py "sentence-transformers not available, trying transformers") p0 in
        match tier2 env name with
        | Return f =>
            (Return tt,
             add_log INFO (py "Successfully loaded model with transformers")
               (assign_embedder (TransformersEmbedder f) p1))
        | Raise e2 =>
            if is_ImportError e2 then
              (Return tt,
               add_log WARNING (py "Using fallback embedder - install sentence-transformers or transformers for better results")
                 (assign_embedder FallbackEmbedder
                    (add_log WARNING (py "transformers not available, using fallback") p1)))
            else (Raise e2, add_log ERROR (py "Failed to load model: " ++ exn_str e2) p1)
        end
      else (Raise e1, add_log ERROR (py "Failed to load model: " ++ exn_str e1) p0)
  end.
Proof.
  unfold load_model, tier1, tier2, try_except_ImportError, try_except, bind,
    gets, logger, set_embedder, modify, lift, ret, raise.
  cbn beta iota zeta. cbn [model_name add_log].
  destruct (import_sentence_transformers env) as [[]|e1].
  - destruct (new_SentenceTransformer env (model_name p)) as [f|e1]; [reflexivity|].
    destruct (is_ImportError e1); [|reflexivity].
    destruct (import_transformers_torch env) as [[]|e2].
    + destruct (new_TransformersEmbedder env (model_name p)) as [f|e2]; [reflexivity|].
      destruct (is_ImportError e2); reflexivity.
    + destruct (is_ImportError e2); reflexivity.
  - destruct (is_ImportError e1); [|reflexivity].
    destruct (import_transformers_torch env) as [[]|e2].
    + destruct (new_TransformersEmbedder env (model_name p)) as [f|e2]; [reflexivity|].
      destruct (is_ImportError e2); reflexivity.
    + destruct (is_ImportError e2); reflexivity.
Qed.

(** C2, as the code has it. Resolution degrades on [ImportError] only. The
    first tier that constructs becomes the encoder; a tier that fails with
    an [ImportError] is discarded and the next one tried, down to the
    fallback encoder, whose construction cannot fail; a tier that fails with
    any other exception ends resolution: [load_model] raises that exception
    and leaves [embedder] as it was. *)
Theorem C2_resolution_degrades_on_ImportError (env : Environment) (p : process) :
  (forall f, tier1 env (model_name p) = Return f ->
     fst (load_model env p) = Return tt
     /\ embedder (snd (load_model env p)) = Some (SentenceTransformer f))
  /\ (forall e1 f,
        tier1 env (model_name p) = Raise e1 -> is_ImportError e1 = true ->
        tier2 env (model_name p) = Return f ->
        fst (load_model env p) = Return tt
        /\ embedder (snd (load_model env p)) = Some (TransformersEmbedder f))
  /\ (forall e1 e2,
        tier1 env (model_name p) = Raise e1 -> is_ImportError e1 = true ->
        tier2 env (model_name p) = Raise e2 -> is_ImportError e2 = true ->
        fst (load_model env p) = Return tt
        /\ embedder (snd (load_model env p)) = Some FallbackEmbedder)
  /\ (forall e1,
        tier1 env (model_name p) = Raise e1 -> is_ImportError e1 = false ->
        fst (load_model env p) = Raise e1
        /\ embedder (snd (load_model env p)) = embedder p)
  /\ (forall e1 e2,
        tier1 env (model_name p) = Raise e1 -> is_ImportError e1 = true ->
        tier2 env (model_name p) = Raise e2 -> is_ImportError e2 = false ->
        fst (load_model env p) = Raise e2
        /\ embedder (snd (load_model env p)) = embedder p).
Proof.
  rewrite load_model_cases. cbn zeta.
  split; [|split; [|split; [|split]]].
  - intros f ->. split; reflexivity.
  - intros e1 f -> -> ->. split; reflexivity.
  - intros e1 e2 -> -> -> ->. split; reflexivity.
  - intros e1 -> ->. split; reflexivity.
  - intros e1 e2 -> -> -> ->. split; reflexivity.
Qed.

End ResolverFacts.

(** ** The theorems at concrete inputs *)



(** C6 at an encoder that runs out of memory. *)
Lemma C6_witness :
  fst (embed_texts (unicode := ascii_text) hello_request failing_process)
  = Raise {| status_code := 500; detail := py "CUDA out of memory" |}
  /\ ready (health (snd (embed_texts (unicode := ascii_text) hello_request failing_process)))
     = true.
Proof.
  destruct (C6_encoding_failure (unicode := ascii_text) hello_request failing_process
              (SentenceTransformer (fun _ _ => Raise failing_error)) failing_error)
    as (Hanswer & _ & _ & _ & Hready).
  - reflexivity.
  - simpl. lia.
  - reflexivity.
  - split; [exact Hanswer|exact Hready].
Defined.

(** C7 at the texts "a b c" and "d e". *)
Lemma C7_witness :
  exists resp p',
    embed_texts (unicode := ascii_text) words_request fallback_process = (Return resp, p')
    /\ prompt_tokens (usage resp) = 5 /\ total_tokens (usage resp) = 5.
Proof.
  eexists _, _. split; [reflexivity|].
  eapply (C7_usage_counts_words (unicode := ascii_text) words_request fallback_process).
  - reflexivity.
  - reflexivity.
Defined.

(** C8 at a request that names a model. *)
Lemma C8_witness :
  exists resp p',
    embed_texts (unicode := ascii_text) named_request fallback_process = (Return resp, p')
    /\ response_model resp = py "my-model".
Proof.
  eexists _, _. split; [reflexivity|].
  eapply (C8_model_label (unicode := ascii_text) named_request fallback_process).
  reflexivity.
Defined.

(** C8 as first stated fails on the empty model name: the request provides
    the empty name and the response is labelled with the process's model name. *)
Lemma C8_counterexample :
  model unnamed_request = Some []
  /\ exists resp p',
       embed_texts (unicode := ascii_text) unnamed_request fallback_process
       = (Return resp, p')
       /\ response_model resp = py "nomic-ai/nomic-embed-text-v2-moe"
       /\ response_model resp <> [].
Proof.
  split; [reflexivity|].
  eexists _, _. split; [reflexivity|]. split; [reflexivity|discriminate].
Qed.

(** C2 as first stated fails when a tier fails otherwise than by an
    [ImportError]: with sentence-transformers installed and the model out of
    reach, startup raises the [OSError] and no encoder is assigned; the
    fallback encoder is not reached. *)
Lemma C2_counterexample :
  fst (startup_event offline_environment initial) = Raise offline_error
  /\ embedder (snd (startup_event offline_environment initial)) = None
  /\ ~ (exists p', startup_event offline_environment initial = (Return tt, p')).
Proof.
  split; [reflexivity|]. split; [reflexivity|].
  intros [p' Hreturn]. discriminate Hreturn.
Qed.

(** C2 where neither library is installed: the fallback encoder is chosen. *)
Lemma C2_witness :
  fst (load_model bare_environment initial) = Return tt
  /\ embedder (snd (load_model bare_environment initial)) = Some FallbackEmbedder.
Proof.
  destruct (C2_resolution_degrades_on_ImportError bare_environment initial)
    as (_ & _ & Hboth & _).
  apply (Hboth (missing_library "sentence_transformers") (missing_library "transformers"));
    reflexivity.
Defined.

(** C5 before startup, and after it on batches of 0, 100 and 101 texts. *)
Lemma C5_witness :
  fst (embed_texts (unicode := ascii_text) (numeric := real_arithmetic)
         (batch_request 1) initial)
  = Raise {| status_code := 503; detail := py "Model not loaded" |}
  /\ fst (embed_texts (unicode := ascii_text) (batch_request 0) fallback_process)
     = Raise {| status_code := 400; detail := py "No texts provided" |}
  /\ fst (embed_texts (unicode := ascii_text) (batch_request 101) fallback_process)
     = Raise {| status_code := 400; detail := py "Too many texts (max 100)" |}
  /\ fst (embed_texts (unicode := ascii_text) (batch_request 100) fallback_process)
     = Return (response_of (batch_request 100) fallback_process
                 (FallbackEmbedder_encode (unicode := ascii_text)
                    (texts (batch_request 100)))).
Proof.
  split; [|split; [|split]].
  - apply (C5_error_responses (unicode := ascii_text) (batch_request 1) initial).
    reflexivity.
  - apply (C5_error_responses (unicode := ascii_text) (batch_request 0) fallback_process).
    + discriminate.
    + reflexivity.
  - apply (C5_error_responses (unicode := ascii_text) (batch_request 101) fallback_process).
    + discriminate.
    + vm_compute. lia.
  - apply (C5_error_responses (unicode := ascii_text) (batch_request 100) fallback_process).
    + reflexivity.
    + reflexivity.
Defined.

(** C10 before startup on an empty batch and on one of 101 texts. *)
Lemma C10_witness :
  embed_texts (unicode := ascii_text) (numeric := real_arithmetic) (batch_request 0) initial
  = (Raise {| status_code := 503; detail := py "Model not loaded" |}, initial)
  /\ embed_texts (unicode := ascii_text) (numeric := real_arithmetic)
       (batch_request 101) initial
     = (Raise {| status_code := 503; detail := py "Model not loaded" |}, initial)
  /\ encode_calls (snd (embed_texts (unicode := ascii_text) (batch_request 101)
                          fallback_process))
     = [].
Proof.
  split; [|split].
  - apply (C10_checks_precede_encoding (unicode := ascii_text) (batch_request 0) initial).
    reflexivity.
  - apply (C10_checks_precede_encoding (unicode := ascii_text) (batch_request 101) initial).
    reflexivity.
  - apply (C10_checks_precede_encoding (unicode := ascii_text) (batch_request 101)
             fallback_process).
    right. right. vm_compute. lia.
Defined.

(** * Further properties *)

(** ** What a session keeps *)

Section SessionFacts.
Context {unicode : Unicode} {numeric : Numeric}.

Lemma well_sized_spec (request : EmbedRequest) :
  well_sized request = true <-> (1 <= length (texts request) <= 100)%nat.
Proof.
  unfold well_sized. destruct (texts request) as [|t ts]; simpl length.
  - split; [discriminate|lia].
  - rewrite negb_true_iff, Z.ltb_ge. lia.
Qed.

(** [embed_texts] in terms of the outcome of the checks. *)
Lemma embed_texts_by_checks (request : EmbedRequest) (p : process) :
  embed_texts request p =
  match embedder p with
  | None => (Raise {| status_code := 503; detail := py "Model not loaded" |}, p)
  | Some active =>
      if well_sized request then
        let p1 := add_call (texts request) (add_log INFO (embedding_record request) p) in
        match encode active (encode_calls p) (texts request) with
        | Return embs => (Return (response_of request p embs), p1)
        | Raise e =>
            (Raise {| status_code := 500; detail := exn_str e |},
             add_log ERROR (py "Error generating embeddings: " ++ exn_str e) p1)
        end
      else
        (Raise {| status_code := 400;
                  detail := match texts request with
                            | [] => py "No texts provided"
                            | _ :: _ => py "Too many texts (max 100)"
                            end |}, p)
  end.
Proof.
  rewrite embed_texts_cases. unfold well_sized.
  destruct (embedder p) as [active|]; [|reflexivity].
  destruct (texts request) as [|t ts]; [reflexivity|].
  destruct (100 <? Z.of_nat (length (t :: ts))); reflexivity.
Qed.

(** X1. The status of an answer tells its cause, and nothing else produces
    it: 200 exactly when an encoder is resolved, the batch has 1 to 100
    texts and [encode] returned (the response carrying what it returned);
    503 exactly when no encoder is resolved; 400 exactly when one is and the
    batch is empty or too long; 500 exactly when [encode] raised, with its
    message as the detail. No other status is ever answered. *)
Theorem embed_texts_status (request : EmbedRequest) (p : process) :
  match fst (embed_texts request p) with
  | Return resp =>
      exists active,
        embedder p = Some active /\ well_sized request = true
        /\ encode active (encode_calls p) (texts request) = Return (embeddings resp)
  | Raise e =>
      (status_code e = 503 /\ embedder p = None)
      \/ (status_code e = 400 /\ embedder p <> None /\ well_sized request = false)
      \/ (status_code e = 500
          /\ exists active ex,
               embedder p = Some active /\ well_sized request = true
               /\ encode active (encode_calls p) (texts request) = Raise ex
               /\ detail e = exn_str ex)
  end.
Proof.
  rewrite embed_texts_by_checks.
  destruct (embedder p) as [active|] eqn:Hactive; [|left; split; reflexivity].
  destruct (well_sized request) eqn:Hsize.
  - cbn zeta.
    destruct (encode active (encode_calls p) (texts request)) as [embs|ex] eqn:Henc;
      cbn [fst].
    + exists active. repeat split; assumption.
    + right. right. split; [reflexivity|]. exists active, ex. repeat split; assumption.
  - right. left. repeat split; discriminate.
Qed.

(** One call keeps the globals and only adds to the log and to the calls. *)
Lemma embed_texts_keeps (request : EmbedRequest) (p : process) :
  embedder (snd (embed_texts request p)) = embedder p
  /\ model_name (snd (embed_texts request p)) = model_name p
  /\ encode_calls (snd (embed_texts request p))
     = encode_calls p
       ++ match embedder p with
          | Some _ => if well_sized request then [texts request] else []
          | None => []
          end.
Proof.
  rewrite embed_texts_by_checks.
  destruct (embedder p) as [active|] eqn:Hactive.
  - destruct (well_sized request).
    + cbn zeta. destruct (encode active (encode_calls p) (texts request));
        cbn; rewrite Hactive; repeat split; reflexivity.
    + cbn. rewrite Hactive, app_nil_r. repeat split; reflexivity.
  - cbn. rewrite Hactive, app_nil_r. repeat split; reflexivity.
Qed.

(** X2. Whatever requests a session serves, in whatever order and with
    whatever outcome, the encoder and the model name stay as they were, so
    [health] and [root] answer the same before and after; there is one
    answer per request; and when an encoder is resolved the batches handed
    to [encode] are exactly those of the requests with 1 to 100 texts, each
    once, in the order of the requests. *)
Theorem serve_keeps_globals (requests : list EmbedRequest) (p : process) :
  embedder (snd (serve requests p)) = embedder p
  /\ model_name (snd (serve requests p)) = model_name p
  /\ health (snd (serve requests p)) = health p
  /\ root (snd (serve requests p)) = root p
  /\ length (fst (serve requests p)) = length requests
  /\ encode_calls (snd (serve requests p))
     = encode_calls p
       ++ match embedder p with
          | Some _ => map texts (List.filter well_sized requests)
          | None => []
          end.
Proof.
  assert (Hmain : embedder (snd (serve requests p)) = embedder p
    /\ model_name (snd (serve requests p)) = model_name p
    /\ length (fst (serve requests p)) = length requests
    /\ encode_calls (snd (serve requests p))
       = encode_calls p
         ++ match embedder p with
            | Some _ => map texts (List.filter well_sized requests)
            | None => []
            end).
  { revert p. induction requests as [|request rest IH]; intros p.
    - cbn. destruct (embedder p); rewrite app_nil_r; repeat split; reflexivity.
    - cbn [serve].
      destruct (embed_texts_keeps request p) as (He & Hm & Hc).
      destruct (embed_texts request p) as [answer p1]. cbn [snd] in He, Hm, Hc.
      destruct (IH p1) as (He' & Hm' & Hl' & Hc').
      destruct (serve rest p1) as [answers p2]. cbn [fst snd] in *.
      rewrite He', Hm', Hm, Hc', Hc, He. cbn [length]. rewrite Hl'.
      repeat split; try reflexivity.
      destruct (embedder p); [|rewrite !app_nil_r; reflexivity].
      cbn [List.filter]. destruct (well_sized request); cbn [map].
      + rewrite <- app_assoc. reflexivity.
      + rewrite app_nil_r. reflexivity. }
  destruct Hmain as (He & Hm & Hl & Hc).
  repeat split; try assumption.
  - unfold health. rewrite He, Hm. reflexivity.
  - unfold root. rewrite Hm. reflexivity.
Qed.

End SessionFacts.

(** ** Startup, then requests *)

Section StartupFacts.
Context {unicode : Unicode} {numeric : Numeric}.

(** X3. [load_model] never changes the model name; when it returns, an
    encoder is assigned and [health] reports ready; when it raises, the
    encoder is as it was and the exception is not an [ImportError]: a
    missing library alone never stops the startup. *)
Theorem load_model_outcome (env : Environment) (p : process) :
  model_name (snd (load_model env p)) = model_name p
  /\ (fst (load_model env p) = Return tt ->
      ready (health (snd (load_model env p))) = true)
  /\ (forall e, fst (load_model env p) = Raise e ->
      embedder (snd (load_model env p)) = embedder p /\ is_ImportError e = false).
Proof.
  rewrite load_model_cases. cbn zeta.
  destruct (tier1 env (model_name p)) as [f|e1].
  { cbn. repeat split; try reflexivity; discriminate. }
  destruct (is_ImportError e1) eqn:H1.
  - destruct (tier2 env (model_name p)) as [f|e2].
    { cbn. repeat split; try reflexivity; discriminate. }
    destruct (is_ImportError e2) eqn:H2.
    + cbn. repeat split; try reflexivity; discriminate.
    + cbn. split; [reflexivity|]. split; [discriminate|].
      intros e [= <-]. split; [reflexivity|exact H2].
  - cbn. split; [reflexivity|]. split; [discriminate|].
    intros e [= <-]. split; [reflexivity|exact H1].
Qed.

(** X4. Before an encoder is assigned every request of a session is
    answered 503 "Model not loaded" and the process is left untouched:
    nothing is logged and [encode] is never called. *)
Theorem serve_before_startup (requests : list EmbedRequest) (p : process) :
  embedder p = None ->
  serve requests p
  = (map (fun _ => Raise {| status_code := 503; detail := py "Model not loaded" |})
         requests, p).
Proof.
  intros Hnone. induction requests as [|request rest IH]; [reflexivity|].
  cbn [serve map]. rewrite embed_texts_by_checks, Hnone, IH. reflexivity.
Qed.

(** With an encoder assigned a refusal is a 400 or a 500. *)
Lemma serve_ready_refusals (requests : list EmbedRequest) (p : process)
    (e : HTTPException) :
  embedder p <> None ->
  In (Raise e) (fst (serve requests p)) ->
  status_code e = 400 \/ status_code e = 500.
Proof.
  revert p. induction requests as [|request rest IH]; intros p Hsome Hin.
  - destruct Hin.
  - cbn [serve] in Hin.
    pose proof (embed_texts_status request p) as Hstatus.
    destruct (embed_texts_keeps request p) as (He & _).
    destruct (embed_texts request p) as [answer p1]. cbn [fst snd] in *.
    specialize (IH p1).
    destruct (serve rest p1) as [answers p2]. cbn [fst] in *.
    destruct Hin as [Hhead|Htail].
    + subst answer. destruct Hstatus as [[_ Hnone]|[[H400 _]|[H500 _]]];
        [contradiction|left; exact H400|right; exact H500].
    + apply IH; [rewrite He; exact Hsome|exact Htail].
Qed.

(** X5. Once [startup_event] has returned, no request of any session is
    answered 503, whichever tier was chosen. *)
Theorem started_never_503 (env : Environment) (p : process)
    (requests : list EmbedRequest) (e : HTTPException) :
  fst (startup_event env p) = Return tt ->
  In (Raise e) (fst (serve requests (snd (startup_event env p)))) ->
  status_code e <> 503.
Proof.
  intros Hstarted Hin.
  assert (Hsome : embedder (snd (startup_event env p)) <> None).
  { destruct (load_model_outcome env p) as (_ & Hready & _).
    specialize (Hready Hstarted). unfold health in Hready. cbn [ready] in Hready.
    unfold startup_event.
    destruct (embedder (snd (load_model env p))); [discriminate|discriminate]. }
  destruct (serve_ready_refusals requests _ e Hsome Hin) as [-> | ->]; lia.
Qed.

(** With the fallback encoder an answer depends on the request and the
    model name alone. *)
Lemma fallback_answer (request : EmbedRequest) (p : process) :
  embedder p = Some FallbackEmbedder ->
  fst (embed_texts request p)
  = if well_sized request
    then Return {| embeddings := map encode_text (texts request);
                   response_model := or_else (model request) (model_name p);
                   usage := {| prompt_tokens := count_words (texts request);
                               total_tokens := count_words (texts request) |} |}
    else Raise {| status_code := 400;
                  detail := match texts request with
                            | [] => py "No texts provided"
                            | _ :: _ => py "Too many texts (max 100)"
                            end |}.
Proof.
  intros Hactive. rewrite embed_texts_by_checks, Hactive.
  destruct (well_sized request); reflexivity.
Qed.

(** X6. With the fallback encoder the service is stateless and never fails
    on a well sized batch: in a session each request gets the answer it
    would get alone, whatever was served before it, that answer is 200
    exactly when the batch has 1 to 100 texts, whatever the texts are, and
    is a 400 otherwise; there is no 500. *)
Theorem fallback_session (requests : list EmbedRequest) (p : process) :
  embedder p = Some FallbackEmbedder ->
  fst (serve requests p) = map (fun request => fst (embed_texts request p)) requests
  /\ Forall (fun request =>
       match fst (embed_texts request p) with
       | Return resp =>
           well_sized request = true
           /\ embeddings resp = map encode_text (texts request)
       | Raise e => well_sized request = false /\ status_code e = 400
       end) requests.
Proof.
  intros Hactive. split.
  - revert p Hactive. induction requests as [|request rest IH]; intros p Hactive;
      [reflexivity|].
    cbn [serve map].
    pose proof (fallback_answer request p Hactive) as Hhere.
    destruct (embed_texts_keeps request p) as (He & Hm & _).
    destruct (embed_texts request p) as [answer p1]. cbn [fst snd] in *.
    assert (Hactive1 : embedder p1 = Some FallbackEmbedder) by congruence.
    specialize (IH p1 Hactive1).
    destruct (serve rest p1) as [answers p2]. cbn [fst] in *.
    rewrite IH. f_equal.
    apply map_ext. intros r.
    rewrite (fallback_answer r p1 Hactive1), (fallback_answer r p Hactive), Hm.
    reflexivity.
  - apply Forall_forall. intros request _.
    rewrite (fallback_answer request p Hactive).
    destruct (well_sized request); split; reflexivity.
Qed.

(** X7. The records of level ERROR tell the failures, one each: [load_model]
    adds one exactly when it raises, [embed_texts] adds one exactly when it
    answers 500, each with the message of the exception; a refused or a
    served request adds none. *)
Theorem errors_logged (env : Environment) (request : EmbedRequest) (p : process) :
  errors (snd (load_model env p))
  = errors p
    ++ match fst (load_model env p) with
       | Return _ => []
       | Raise e => [(ERROR, py "Failed to load model: " ++ exn_str e)]
       end
  /\ errors (snd (embed_texts request p))
     = errors p
       ++ match fst (embed_texts request p) with
          | Return _ => []
          | Raise e =>
              if status_code e =? 500
              then [(ERROR, py "Error generating embeddings: " ++ detail e)]
              else []
          end.
Proof.
  unfold errors. split.
  - rewrite load_model_cases. cbn zeta.
    destruct (tier1 env (model_name p)) as [f|e1].
    { cbn [snd fst log add_log assign_embedder].
      rewrite !List.filter_app. cbn. rewrite !app_nil_r. reflexivity. }
    destruct (is_ImportError e1).
    + destruct (tier2 env (model_name p)) as [f|e2].
      { cbn [snd fst log add_log assign_embedder].
        rewrite !List.filter_app. cbn. rewrite !app_nil_r. reflexivity. }
      destruct (is_ImportError e2);
        cbn [snd fst log add_log assign_embedder];
        rewrite !List.filter_app; cbn; rewrite ?app_nil_r; reflexivity.
    + cbn [snd fst log add_log assign_embedder].
      rewrite !List.filter_app. cbn. rewrite ?app_nil_r. reflexivity.
  - rewrite embed_texts_by_checks.
    destruct (embedder p) as [active|]; [|cbn; rewrite app_nil_r; reflexivity].
    destruct (well_sized request); [|cbn; rewrite app_nil_r; reflexivity].
    cbn zeta. destruct (encode active (encode_calls p) (texts request));
      cbn [snd fst log add_log add_call status_code detail];
      rewrite !List.filter_app; cbn; rewrite ?app_nil_r; reflexivity.
Qed.

End StartupFacts.

(** ** More on the fallback vector *)

Section VectorFacts.
Context {unicode : Unicode} {numeric : Numeric}.

(** X8. Every turn of the loop lands inside the vector, for every position
    and every character code: on a vector of 768 entries the entry written
    exists, it becomes its old value plus the character's feature, no other
    entry changes and the vector keeps its 768 entries. No [IndexError] can
    arise and no contribution is dropped. *)
Theorem accumulate_in_range (v : list num) (i : nat) (c : Z) :
  length v = 768%nat ->
  exists x,
    v !! Z.to_nat (index_of i c) = Some x
    /\ accumulate v (i, c) !! Z.to_nat (index_of i c)
       = Some (np_float32 (np_add x (np_mul (np_sin (np_of_int (c + Z.of_nat i))) np_tenth)))
    /\ (forall k, k <> Z.to_nat (index_of i c) -> accumulate v (i, c) !! k = v !! k)
    /\ length (accumulate v (i, c)) = 768%nat.
Proof.
  intros Hlen.
  destruct (lookup_lt_is_Some_2 v (Z.to_nat (index_of i c))) as [x Hx].
  { rewrite Hlen. apply index_of_bound. }
  exists x. split; [exact Hx|]. split; [|split].
  - unfold accumulate. rewrite list_lookup_alter.
    destruct (decide (Z.to_nat (index_of i c) = Z.to_nat (index_of i c)));
      [|congruence].
    rewrite Hx. reflexivity.
  - intros k Hk. unfold accumulate. apply list_lookup_alter_ne. congruence.
  - rewrite accumulate_length. exact Hlen.
Qed.

Lemma spec_add_untouched (k : nat) (l : list (nat * Z)) (acc : num) :
  k ∉ map (fun ic => Z.to_nat (index_of (fst ic) (snd ic))) l ->
  fold_left (spec_add k) l acc = acc.
Proof.
  revert acc. induction l as [|[i c] l IH]; intros acc Hk; [reflexivity|].
  cbn [map fst snd] in Hk. apply not_elem_of_cons in Hk as [Hne Hk].
  cbn [fold_left]. unfold spec_add at 2.
  destruct (decide (Z.to_nat (index_of i c) = k)); [congruence|].
  apply IH. exact Hk.
Qed.

Lemma enumerate_from_length (i : nat) (s : pystr) :
  length (enumerate_from i s) = length s.
Proof.
  revert i. induction s as [|c s IH]; intros i; [reflexivity|].
  cbn. rewrite IH. reflexivity.
Qed.

(** X9. The vector built is sparse: apart from entry 0 and the entries the
    first 100 characters hash to, at most 101 entries in all, every entry is
    still the zero it was allocated with. *)
Theorem untouched_entries_zero (text : pystr) (k : nat) :
  (length (touched (strip (lower text))) <= 101)%nat
  /\ ((k < 768)%nat -> k ∉ touched (strip (lower text)) ->
      raw_embedding text !! k = Some np_zero).
Proof.
  split.
  - unfold touched, enumerate. cbn [length].
    rewrite length_map, enumerate_from_length, length_take. lia.
  - intros Hk Huntouched. unfold touched in Huntouched.
    apply not_elem_of_cons in Huntouched as [Hne Huntouched].
    rewrite raw_embedding_spec. unfold spec_vector.
    change (map ?f ?l) with (f <$> l).
    rewrite list_lookup_fmap, (lookup_seq_lt 0 768 k Hk).
    cbn [fmap option_fmap option_map Nat.add].
    destruct k as [|k]; [congruence|]. cbn [spec_component].
    rewrite spec_add_untouched by exact Huntouched. reflexivity.
Qed.

(** X10. The embedding looks at the lowercased, stripped text through its
    first 100 characters and its length only: two texts that agree on both
    get the same embedding, whatever follows the 100th character. *)
Theorem encode_text_prefix (a b : pystr) :
  take 100 (strip (lower a)) = take 100 (strip (lower b)) ->
  length (strip (lower a)) = length (strip (lower b)) ->
  encode_text a = encode_text b.
Proof.
  intros Hprefix Hlen. unfold encode_text, raw_embedding, length_feature.
  rewrite Hprefix, Hlen. reflexivity.
Qed.

End VectorFacts.

(** ** Usage *)

Section UsageFacts.
Context {unicode : Unicode} {numeric : Numeric}.

Lemma sum_from (l : list Z) (a : Z) : fold_left Z.add l a = a + sum l.
Proof.
  unfold sum. revert a. induction l as [|x l IH]; intros a; cbn [fold_left]; [lia|].
  rewrite (IH (a + x)), (IH (0 + x)). lia.
Qed.

Lemma sum_cons (x : Z) (l : list Z) : sum (x :: l) = x + sum l.
Proof. unfold sum at 1. cbn [fold_left]. rewrite sum_from. lia. Qed.

Lemma count_words_cons (text : pystr) (ts : list pystr) :
  count_words (text :: ts) = Z.of_nat (length (split text)) + count_words ts.
Proof. unfold count_words. cbn [map]. apply sum_cons. Qed.

(** There are no more words than characters. *)
Lemma split_from_length (word s : pystr) :
  (length (split_from word s)
   <= length s + match word with [] => 0 | _ :: _ => 1 end)%nat.
Proof.
  revert word. induction s as [|c s IH]; intros word.
  - destruct word; cbn; lia.
  - cbn [split_from]. destruct (isspace c).
    + specialize (IH []). destruct word; cbn [length] in *; lia.
    + specialize (IH (word ++ [c])).
      destruct (word ++ [c]) eqn:Hw; [destruct word; discriminate|].
      destruct word; cbn [length] in *; lia.
Qed.

Lemma count_words_bounds (ts : list pystr) :
  0 <= count_words ts <= Z.of_nat (length (concat ts)).
Proof.
  induction ts as [|text ts IH]; [cbn; lia|].
  rewrite count_words_cons. cbn [concat]. rewrite length_app.
  pose proof (split_from_length [] text) as Hwords. cbn beta iota in Hwords.
  unfold split. lia.
Qed.

Lemma count_words_app (ts1 ts2 : list pystr) :
  count_words (ts1 ++ ts2) = count_words ts1 + count_words ts2.
Proof.
  induction ts1 as [|text ts1 IH]; [reflexivity|].
  cbn [app]. rewrite !count_words_cons, IH. lia.
Qed.

(** X11. In every successful response the two token counts are equal, not
    negative and at most the number of characters sent; and they add up
    over batches: the count for a batch split in two requests is the sum of
    the two counts. *)
Theorem usage_bounds (request : EmbedRequest) (p p' : process) (resp : EmbedResponse) :
  embed_texts request p = (Return resp, p') ->
  prompt_tokens (usage resp) = total_tokens (usage resp)
  /\ 0 <= prompt_tokens (usage resp) <= Z.of_nat (length (concat (texts request)))
  /\ forall ts1 ts2, texts request = ts1 ++ ts2 ->
       prompt_tokens (usage resp) = count_words ts1 + count_words ts2.
Proof.
  intros Hcall.
  destruct (embed_texts_returns request p p' resp Hcall)
    as (active & embs & _ & _ & _ & -> & _).
  cbn [usage response_of prompt_tokens total_tokens].
  split; [reflexivity|]. split; [apply count_words_bounds|].
  intros ts1 ts2 ->. apply count_words_app.
Qed.

End UsageFacts.

(** ** The further properties at concrete inputs *)

(** Before startup, a session of a good request and an empty one. *)
Lemma serve_before_startup_witness :
  serve (unicode := ascii_text) (numeric := real_arithmetic)
    [batch_request 1; batch_request 0] initial
  = ([Raise {| status_code := 503; detail := py "Model not loaded" |};
      Raise {| status_code := 503; detail := py "Model not loaded" |}], initial).
Proof.
  apply (serve_before_startup (unicode := ascii_text)
           [batch_request 1; batch_request 0] initial).
  reflexivity.
Defined.

(** After a startup with no library installed, an empty request is refused
    with 400, not 503. *)
Lemma started_never_503_witness :
  status_code {| status_code := 400; detail := py "No texts provided" |} <> 503.
Proof.
  apply (started_never_503 (unicode := ascii_text) bare_environment initial
           [batch_request 0]).
  - reflexivity.
  - left. reflexivity.
Defined.

(** A session of three requests served by the fallback encoder. *)
Lemma fallback_session_witness :
  fst (serve (unicode := ascii_text)
         [hello_request; batch_request 0; hello_request] fallback_process)
  = map (fun request => fst (embed_texts (unicode := ascii_text) request fallback_process))
        [hello_request; batch_request 0; hello_request].
Proof.
  apply (fallback_session (unicode := ascii_text)
           [hello_request; batch_request 0; hello_request] fallback_process).
  reflexivity.
Defined.

(** A turn of the loop on the allocated vector, for the letter "a" at
    position 0: entry 679 is written. *)
Lemma accumulate_in_range_witness :
  exists x : R,
    replicate 768 0%R !! 679%nat = Some x
    /\ length (accumulate (numeric := real_arithmetic) (replicate 768 0%R) (0%nat, 97))
       = 768%nat.
Proof.
  destruct (accumulate_in_range (numeric := real_arithmetic) (replicate 768 0%R) 0 97)
    as (x & Hx & _ & _ & Hlen).
  - apply length_replicate.
  - exists x. split; [exact Hx|exact Hlen].
Defined.

(** Two different texts of 101 letters with the same embedding. *)
Lemma encode_text_prefix_witness :
  replicate 100 97 ++ [98] <> replicate 100 97 ++ [99]
  /\ encode_text (unicode := ascii_text) (numeric := real_arithmetic)
       (replicate 100 97 ++ [98])
     = encode_text (unicode := ascii_text) (numeric := real_arithmetic)
         (replicate 100 97 ++ [99]).
Proof.
  split.
  - intros Heq. apply app_inv_head in Heq. discriminate Heq.
  - apply (encode_text_prefix (unicode := ascii_text) (numeric := real_arithmetic)).
    + vm_compute. reflexivity.
    + vm_compute. reflexivity.
Defined.

(** The usage of the texts "a b c" and "d e": 5 words in 8 characters. *)
Lemma usage_bounds_witness :
  0 <= 5 <= 8.
Proof.
  pose proof (usage_bounds (unicode := ascii_text) words_request fallback_process
                (add_call (texts words_request)
                   (add_log INFO (embedding_record words_request) fallback_process))
                (response_of words_request fallback_process
                   (FallbackEmbedder_encode (unicode := ascii_text) (texts words_request)))
                eq_refl) as (_ & Hbounds & _).
  exact Hbounds.
Defined.

(** A startup with no library installed ends ready; one with the model out
    of reach raises an exception that is no [ImportError]. *)
Lemma load_model_outcome_witness :
  ready (health (snd (load_model bare_environment initial))) = true
  /\ is_ImportError offline_error = false.
Proof.
  split.
  - apply (load_model_outcome bare_environment initial). reflexivity.
  - destruct (load_model_outcome offline_environment initial) as (_ & _ & Hraise).
    apply (Hraise offline_error). reflexivity.
Defined.

(** The text "ab" touches entries 0, 679 and 697; entry 1 stays zero. *)
Lemma untouched_entries_zero_witness :
  raw_embedding (unicode := ascii_text) (numeric := real_arithmetic) (py "ab") !! 1%nat
  = Some 0%R.
Proof.
  apply (untouched_entries_zero (unicode := ascii_text) (numeric := real_arithmetic)
           (py "ab") 1).
  - lia.
  - vm_compute. intros Hin.
    repeat (apply elem_of_cons in Hin as [Hin|Hin]; [discriminate Hin|]).
    apply elem_of_nil in Hin. exact Hin.
Defined.

(** ** The test script *)

Section ClientFacts.
Context {World Body Data : Type}.
Variable get : pystr -> M World PyException (Response Body).
Variable post : pystr -> list pystr -> M World PyException (Response Body).
Variable json : Body -> result PyException Data.
Variable text : Body -> result PyException pystr.
Variable item : Data -> string -> result PyException Data.
Variable index : Data -> nat -> result PyException Data.
Variable len : Data -> result PyException nat.
Variable format : Data -> result PyException pystr.
Variable dimensions : Data -> result PyException pystr.
Variable similarity : Data -> Data -> result PyException pystr.
Variable stdout_error : list pystr -> pystr -> option PyException.

Local Abbreviation test_health' :=
  (test_health get json item format stdout_error).
Local Abbreviation test_single' :=
  (test_single post json text item index len format stdout_error).
Local Abbreviation test_batch' :=
  (test_batch post json text item index len dimensions similarity stdout_error).
Local Abbreviation test_empty' := (test_empty post stdout_error).
Local Abbreviation test_server' :=
  (test_server get post json text item index len format dimensions similarity
     stdout_error).
Local Abbreviation health_reads' := (health_reads json item format).
Local Abbreviation single_reads' := (single_reads json item index len format).
Local Abbreviation batch_reads' := (batch_reads json item index len dimensions similarity).

Section Quiet.
Hypothesis Hquiet : forall out line, stdout_error out line = None.

Lemma test_health_quiet (base_url : pystr) (st : run World) :
  exists out',
    test_health' base_url st
    = (Return (answered_200 health_reads'
                 (fst (get (base_url ++ py "/health") (world st)))),
       {| world := snd (get (base_url ++ py "/health") (world st));
          printed := out' |}).
Proof.
  unfold test_health, answered_200, health_reads, try_except, bind, request, lift,
    ret, print, field.
  destruct (get (base_url ++ py "/health") (world st)) as [[r|e] w1];
    cbn [fst snd world printed];
    repeat first [rewrite Hquiet | progress cbn [fst snd world printed andb returns]
                 | next_case];
    eexists; reflexivity.
Qed.

Lemma test_single_quiet (base_url : pystr) (st : run World) :
  exists out',
    test_single' base_url st
    = (Return (answered_200 single_reads'
                 (fst (post (base_url ++ py "/embed") single_batch (world st)))),
       {| world := snd (post (base_url ++ py "/embed") single_batch (world st));
          printed := out' |}).
Proof.
  unfold test_single, answered_200, single_reads, try_except, bind, request, lift,
    ret, print, field.
  destruct (post (base_url ++ py "/embed") single_batch (world st)) as [[r|e] w1];
    cbn [fst snd world printed];
    repeat first [rewrite Hquiet | progress cbn [fst snd world printed andb returns]
                 | next_case];
    eexists; reflexivity.
Qed.

Lemma test_batch_quiet (base_url : pystr) (st : run World) :
  exists out',
    test_batch' base_url st
    = (Return (answered_200 batch_reads'
                 (fst (post (base_url ++ py "/embed") triple_batch (world st)))),
       {| world := snd (post (base_url ++ py "/embed") triple_batch (world st));
          printed := out' |}).
Proof.
  unfold test_batch, answered_200, batch_reads, try_except, bind, request, lift,
    ret, print, field.
  destruct (post (base_url ++ py "/embed") triple_batch (world st)) as [[r|e] w1];
    cbn [fst snd world printed];
    repeat first [rewrite Hquiet | progress cbn [fst snd world printed andb returns]
                 | next_case];
    try (eexists; reflexivity); congruence.
Qed.

Lemma test_empty_quiet (base_url : pystr) (st : run World) :
  exists out',
    test_empty' base_url st
    = (Return (returns (fst (post (base_url ++ py "/embed") [] (world st)))),
       {| world := snd (post (base_url ++ py "/embed") [] (world st));
          printed := out' |}).
Proof.
  unfold test_empty, try_except, bind, request, lift, ret, print.
  destruct (post (base_url ++ py "/embed") [] (world st)) as [[r|e] w1];
    cbn [fst snd world printed];
    repeat first [rewrite Hquiet | progress cbn [fst snd world printed andb returns]
                 | next_case];
    eexists; reflexivity.
Qed.

(** On a standard output that takes every line the script returns, and its
    verdict is the conjunction of the four tests. *)
Lemma test_server_quiet (base_url : pystr) (st : run World) :
  exists st',
    test_server' base_url st
    = (Return
         (answered_200 health_reads' (fst (get (base_url ++ py "/health") (world st)))
          && answered_200 single_reads'
               (fst (post (base_url ++ py "/embed") single_batch
                       (snd (get (base_url ++ py "/health") (world st)))))
          && answered_200 batch_reads'
               (fst (post (base_url ++ py "/embed") triple_batch
                       (snd (post (base_url ++ py "/embed") single_batch
                               (snd (get (base_url ++ py "/health") (world st)))))))
          && returns
               (fst (post (base_url ++ py "/embed") []
                       (snd (post (base_url ++ py "/embed") triple_batch
                               (snd (post (base_url ++ py "/embed") single_batch
                                       (snd (get (base_url ++ py "/health")
                                               (world st)))))))))),
       st').
Proof.
  unfold test_server, bind, print, ret.
  repeat first [rewrite Hquiet | progress cbn beta iota zeta
               | progress cbn [world printed fst snd]].
  match goal with
  | |- context [test_health' base_url ?s] =>
      destruct (test_health_quiet base_url s) as [out1 ->]
  end.
  cbn [world]. destruct (answered_200 health_reads' _); [|eexists; reflexivity].
  repeat first [rewrite Hquiet | progress cbn beta iota zeta
               | progress cbn [world printed fst snd andb]].
  match goal with
  | |- context [test_single' base_url ?s] =>
      destruct (test_single_quiet base_url s) as [out2 ->]
  end.
  cbn [world]. destruct (answered_200 single_reads' _); [|eexists; reflexivity].
  repeat first [rewrite Hquiet | progress cbn beta iota zeta
               | progress cbn [world printed fst snd andb]].
  match goal with
  | |- context [test_batch' base_url ?s] =>
      destruct (test_batch_quiet base_url s) as [out3 ->]
  end.
  cbn [world]. destruct (answered_200 batch_reads' _); [|eexists; reflexivity].
  repeat first [rewrite Hquiet | progress cbn beta iota zeta
               | progress cbn [world printed fst snd andb]].
  match goal with
  | |- context [test_empty' base_url ?s] =>
      destruct (test_empty_quiet base_url s) as [out4 ->]
  end.
  cbn [world]. destruct (returns _); [|eexists; reflexivity].
  repeat first [rewrite Hquiet | progress cbn beta iota zeta
               | progress cbn [world printed fst snd andb]].
  eexists. reflexivity.
Qed.

(** X14. On a standard output that takes every line, [test_server] never
    raises, and its verdict is [True] exactly when, one after the other, the
    health request, the post of the single text and the post of the three
    texts are each answered 200 with a body in which everything the test
    looks up is there, and the post of no texts is answered at all; the
    status of that last answer is not looked at. *)
Theorem test_server_verdict (base_url : pystr) (st : run World) :
  let a1 := get (base_url ++ py "/health") (world st) in
  let a2 := post (base_url ++ py "/embed") single_batch (snd a1) in
  let a3 := post (base_url ++ py "/embed") triple_batch (snd a2) in
  let a4 := post (base_url ++ py "/embed") [] (snd a3) in
  (exists verdict st', test_server' base_url st = (Return verdict, st'))
  /\ (fst (test_server' base_url st) = Return true
      <-> answered_200 health_reads' (fst a1) = true
          /\ answered_200 single_reads' (fst a2) = true
          /\ answered_200 batch_reads' (fst a3) = true
          /\ returns (fst a4) = true).
Proof.
  intros a1 a2 a3 a4. subst a1 a2 a3 a4.
  destruct (test_server_quiet base_url st) as [st' ->].
  split; [eexists _, _; reflexivity|]. cbn [fst]. split.
  - intros [= Hall]. rewrite !andb_true_iff in Hall.
    destruct Hall as [[[H1 H2] H3] H4]. repeat split; assumption.
  - intros (-> & -> & -> & ->). reflexivity.
Qed.

End Quiet.

(** X15. Once the two opening lines are printed, a health request that
    raises, or is answered with a status other than 200, ends the script
    with nothing posted: the world is as the health request left it. The
    script then returns [False] if it can print the failure; if it cannot,
    the exception of [print] leaves the script, since that [print] stands in
    the [except] handler (or in the [try] block and then again in the
    handler). *)
Theorem test_server_health_gate (base_url : pystr) (st : run World) :
  let out := (printed st ++ [py "Testing embedding server at " ++ base_url])
             ++ [10 :: py "1. Testing health endpoint..."] in
  stdout_error (printed st) (py "Testing embedding server at " ++ base_url) = None ->
  stdout_error (printed st ++ [py "Testing embedding server at " ++ base_url])
    (10 :: py "1. Testing health endpoint...") = None ->
  match get (base_url ++ py "/health") (world st) with
  | (Raise e, w1) =>
      test_server' base_url st
      = match stdout_error out (cross_mark ++ py " Health check failed: " ++ exn_str e) with
        | None =>
            (Return false,
             {| world := w1;
                printed := out ++ [cross_mark ++ py " Health check failed: " ++ exn_str e] |})
        | Some e' => (Raise e', {| world := w1; printed := out |})
        end
  | (Return r, w1) =>
      response_status r <> 200 ->
      test_server' base_url st
      = match stdout_error out
                (cross_mark ++ py " Health check failed: "
                   ++ str_of_int (response_status r)) with
        | None =>
            (Return false,
             {| world := w1;
                printed := out ++ [cross_mark ++ py " Health check failed: "
                                     ++ str_of_int (response_status r)] |})
        | Some e1 =>
            match stdout_error out
                    (cross_mark ++ py " Health check failed: " ++ exn_str e1) with
            | None =>
                (Return false,
                 {| world := w1;
                    printed := out ++ [cross_mark ++ py " Health check failed: "
                                         ++ exn_str e1] |})
            | Some e2 => (Raise e2, {| world := w1; printed := out |})
            end
        end
  end.
Proof.
  intros out Hline1 Hline2. subst out.
  destruct (get (base_url ++ py "/health") (world st)) as [[r|e] w1] eqn:Hget;
    [intros Hstatus; apply Z.eqb_neq in Hstatus|];
    unfold test_server, test_health, try_except, bind, request, print, ret;
    rewrite Hline1; cbn [world printed]; rewrite Hline2; cbn [world printed];
    rewrite Hget; [rewrite Hstatus|];
    repeat (progress (cbn beta iota zeta; cbn [world printed fst snd])).
  - destruct (stdout_error _ (cross_mark ++ py " Health check failed: "
                                ++ str_of_int (response_status r))) as [e1|];
      [|reflexivity].
    repeat (progress (cbn beta iota zeta; cbn [world printed fst snd])).
    destruct (stdout_error _ (cross_mark ++ py " Health check failed: " ++ exn_str e1));
      reflexivity.
  - destruct (stdout_error _ (cross_mark ++ py " Health check failed: " ++ exn_str e));
      reflexivity.
Qed.

Section Narrow.
Hypothesis Hnarrow : forall out line c,
  In c line -> 127 < c -> stdout_error out line <> None.

Lemma cross_mark_raises (out : list pystr) (rest : pystr) :
  exists e, stdout_error out (cross_mark ++ rest) = Some e.
Proof.
  destruct (stdout_error out (cross_mark ++ rest)) as [e|] eqn:Hout;
    [exists e; reflexivity|].
  exfalso. apply (Hnarrow out (cross_mark ++ rest) 0x274C); [left; reflexivity|lia|exact Hout].
Qed.

Lemma check_mark_raises (out : list pystr) (rest : pystr) :
  exists e, stdout_error out (check_mark ++ rest) = Some e.
Proof.
  destruct (stdout_error out (check_mark ++ rest)) as [e|] eqn:Hout;
    [exists e; reflexivity|].
  exfalso. apply (Hnarrow out (check_mark ++ rest) 0x2705); [left; reflexivity|lia|exact Hout].
Qed.

Lemma test_health_narrow (base_url : pystr) (st : run World) :
  exists e st' out line,
    test_health' base_url st = (Raise e, st') /\ stdout_error out line = Some e.
Proof.
  unfold test_health, try_except, bind, request, lift, ret, print, field.
  repeat first
    [ progress cbn beta iota zeta
    | progress cbn [fst snd world printed]
    | match goal with
      | |- context [stdout_error ?o (cross_mark ++ ?r)] =>
          let e := fresh "e" in let H := fresh "H" in
          destruct (cross_mark_raises o r) as [e H]; rewrite H
      | |- context [stdout_error ?o (check_mark ++ ?r)] =>
          let e := fresh "e" in let H := fresh "H" in
          destruct (check_mark_raises o r) as [e H]; rewrite H
      end
    | next_case ];
    eexists _, _, _, _; (split; [reflexivity|eassumption]).
Qed.

(** X16. On a standard output that raises for every line with a character
    beyond ASCII, [test_server] raises whatever the server does: each way
    through the first test prints a check mark or a cross, and the cross is
    printed from the [except] handler too. The exception that leaves the
    script is one that [print] raised. *)
Theorem test_server_needs_unicode (base_url : pystr) (st : run World) :
  exists e st' out line,
    test_server' base_url st = (Raise e, st') /\ stdout_error out line = Some e.
Proof.
  unfold test_server, bind at 1 2 3, print at 1 2.
  destruct (stdout_error (printed st) (py "Testing embedding server at " ++ base_url))
    as [e1|] eqn:H1; [eexists _, _, _, _; split; [reflexivity|exact H1]|].
  cbn [world printed].
  destruct (stdout_error _ (10 :: py "1. Testing health endpoint...")) as [e2|] eqn:H2;
    [eexists _, _, _, _; split; [reflexivity|exact H2]|].
  match goal with
  | |- context [test_health' base_url ?s] =>
      destruct (test_health_narrow base_url s) as (e & st' & out & line & -> & Hraised)
  end.
  exists e, st', out, line. split; [reflexivity|exact Hraised].
Qed.

End Narrow.

End ClientFacts.

(** With no server listening and a standard output that takes every line,
    the script returns [False]. *)
Lemma test_server_verdict_witness :
  fst (test_no_server unicode_stdout) = Return false.
Proof.
  destruct (test_server_verdict no_server_get no_server_post
              (fun _ => Return tt) (fun _ => Return []) (fun _ _ => Return tt)
              (fun _ _ => Return tt) (fun _ => Return O) (fun _ => Return [])
              (fun _ => Return []) (fun _ _ => Return [])
              unicode_stdout (fun _ _ => eq_refl)
              (py "http://127.0.0.1:8000") {| world := tt; printed := [] |})
    as [(verdict & st' & Hrun) Hiff].
  unfold test_no_server. rewrite Hrun in *. cbn [fst] in *.
  destruct verdict; [|reflexivity].
  destruct Hiff as [Hpass _]. destruct (Hpass eq_refl) as [Hhealth _].
  discriminate Hhealth.
Defined.

(** With no server listening the script prints its two opening lines and
    the failure, and returns [False]; on an ASCII standard output it cannot
    print the failure and the [UnicodeEncodeError] leaves the script. *)
Lemma test_server_health_gate_witness :
  fst (test_no_server unicode_stdout) = Return false
  /\ fst (test_no_server ascii_stdout) = Raise UnicodeEncodeError.
Proof.
  split.
  - unfold test_no_server.
    rewrite (test_server_health_gate no_server_get no_server_post
               (fun _ => Return tt) (fun _ => Return []) (fun _ _ => Return tt)
               (fun _ _ => Return tt) (fun _ => Return O) (fun _ => Return [])
               (fun _ => Return []) (fun _ _ => Return [])
               unicode_stdout (py "http://127.0.0.1:8000")
               {| world := tt; printed := [] |} eq_refl eq_refl).
    reflexivity.
  - unfold test_no_server.
    rewrite (test_server_health_gate no_server_get no_server_post
               (fun _ => Return tt) (fun _ => Return []) (fun _ _ => Return tt)
               (fun _ _ => Return tt) (fun _ => Return O) (fun _ => Return [])
               (fun _ => Return []) (fun _ _ => Return [])
               ascii_stdout (py "http://127.0.0.1:8000")
               {| world := tt; printed := [] |} eq_refl eq_refl).
    reflexivity.
Defined.

(** A line with a character beyond ASCII is refused by the ASCII output. *)
Lemma ascii_stdout_narrow (out : list pystr) (line : pystr) (c : Z) :
  In c line -> 127 < c -> ascii_stdout out line <> None.
Proof.
  intros Hin Hc. unfold ascii_stdout.
  destruct (forallb (fun c => c <=? 127) line) eqn:Hall; [|discriminate].
  rewrite forallb_forall in Hall. specialize (Hall c Hin).
  apply Z.leb_le in Hall. lia.
Defined.

(** On an ASCII standard output the script raises, here with no server. *)
Lemma test_server_needs_unicode_witness :
  exists e st', test_no_server ascii_stdout = (Raise e, st').
Proof.
  destruct (test_server_needs_unicode no_server_get no_server_post
              (fun _ => Return tt) (fun _ => Return []) (fun _ _ => Return tt)
              (fun _ _ => Return tt) (fun _ => Return O) (fun _ => Return [])
              (fun _ => Return []) (fun _ _ => Return [])
              ascii_stdout ascii_stdout_narrow
              (py "http://127.0.0.1:8000") {| world := tt; printed := [] |})
    as (e & st' & _ & _ & Hrun & _).
  exists e, st'. exact Hrun.
Defined.
